(** * TextHumanizer backend: a shallow embedding of [backend/server.py]

    The service forwards a text to a chat-completion provider under a
    tone-specific instruction and keeps a history of rephrasings in a
    document collection.  Python values are embedded as follows:

    - [str] is a sequence of Unicode code points, [list N];
    - [int] is [Z];
    - a [dict] is a finite map ([gmap]);
    - the Mongo collection [db.history] is the list of its documents in
      natural (insertion) order;
    - a route handler is a computation over the request environment
      (what the process reads from outside: the credential, the provider's
      answer, the clock, fresh identifiers, the store's availability) and
      the mutable world (the collection, the log, the outbound calls),
      returning a value or raising an exception. *)

From Stdlib Require Import ZArith NArith List String Ascii Lia ZifyBool.
From stdpp Require Import gmap strings list sorting lexico pretty.

Local Open Scope Z_scope.

(** ** Python strings *)

Abbreviation str := (list N).

(** A literal of the source, code point by code point. *)
Definition py (s : string) : str :=
  List.map N_of_ascii (list_ascii_of_string s).

(** [str.isspace] on one code point: the characters CPython's
    [_PyUnicode_IsWhitespace] accepts. *)
Definition isspace (c : N) : bool :=
  (((9 <=? c) && (c <=? 13)) || ((28 <=? c) && (c <=? 32))
   || (c =? 133) || (c =? 160) || (c =? 5760)
   || ((8192 <=? c) && (c <=? 8202))
   || (c =? 8232) || (c =? 8233) || (c =? 8239) || (c =? 8287)
   || (c =? 12288))%N.

(** [s.split()] with no separator: runs of whitespace separate the words,
    leading and trailing whitespace yields no empty word.  [tok] is the word
    being scanned, last character first. *)
Fixpoint split_from (tok : str) (s : str) : list str :=
  match s with
  | [] => match tok with [] => [] | _ => [rev tok] end
  | c :: s' =>
      if isspace c
      then match tok with
           | [] => split_from [] s'
           | _ => rev tok :: split_from [] s'
           end
      else split_from (c :: tok) s'
  end.

Definition split (s : str) : list str := split_from [] s.

(** [len] of a sequence, as a Python int. *)
Definition len {A} (l : list A) : Z := Z.of_nat (length l).

(** The spec's wording of the word count: the whitespace-delimited tokens of
    a string are its maximal runs of non-whitespace characters; there is one
    per character that is not whitespace and is either the first character or
    preceded by whitespace. *)
Fixpoint token_starts (after_space : bool) (s : str) : nat :=
  match s with
  | [] => O
  | c :: s' =>
      ((if after_space && negb (isspace c) then 1 else 0)
       + token_starts (isspace c) s')%nat
  end.

Definition whitespace_delimited_tokens (s : str) : nat := token_starts true s.

(** ** Exceptions and handler computations *)

Inductive exn :=
  | HTTPException (status_code : Z) (detail : str)
  | KeyError (key : str)
  | Error (message : str).   (* any other Exception, with its str() *)

(** [str(e)].  Starlette prints an HTTPException as "<status>: <detail>";
    a KeyError prints the repr of its key. *)
Definition exn_str (e : exn) : str :=
  match e with
  | HTTPException c d => py (pretty c) ++ py ": " ++ d
  | KeyError k => py "'" ++ k ++ py "'"
  | Error m => m
  end.

Inductive result (A : Type) :=
  | Ok (a : A)
  | Raise (e : exn).
Arguments Ok {A} a.
Arguments Raise {A} e.

(** ** Models (pydantic) *)

Module RephraseRequest.
Record t := {
  text : str;
  tone : str
}.
End RephraseRequest.

Module RephraseResponse.
Record t := {
  rephrased_text : str;
  original_text : str;
  tone : str;
  word_count : Z;
  char_count : Z
}.
End RephraseResponse.

(** Request bodies as parsed JSON. *)
#[local] Unset Elimination Schemes.
Inductive json :=
  | JNull
  | JBool (b : bool)
  | JNumber (z : Z)
  | JString (s : str)
  | JArray (items : list json)
  | JObject (fields : gmap str json).
#[local] Set Elimination Schemes.

(** Validation of a body against [RephraseRequest]: [text: str] is required,
    [tone: str] defaults to "conversational"; the fields carry no further
    constraint and unknown fields are ignored.  [None] is a validation
    error. *)
Definition validate_RephraseRequest (body : json) : option RephraseRequest.t :=
  match body with
  | JObject fields =>
      match fields !! py "text" with
      | Some (JString t) =>
          match fields !! py "tone" with
          | None => Some {| RephraseRequest.text := t;
                       RephraseRequest.tone := py "conversational" |}
          | Some (JString tn) =>
              Some {| RephraseRequest.text := t; RephraseRequest.tone := tn |}
          | Some _ => None
          end
      | _ => None
      end
  | _ => None
  end.

(** ** Timestamps: [datetime] with [isoformat] and [fromisoformat] *)

(** A [datetime]; [utcoffset] is the offset of its tzinfo in minutes, [None]
    for a naive value.  [timezone.utc] is [Some 0]. *)
Record datetime := {
  year : Z;
  month : Z;
  day : Z;
  hour : Z;
  minute : Z;
  second : Z;
  microsecond : Z;
  utcoffset : option Z
}.

Definition is_leap (y : Z) : bool :=
  (y mod 4 =? 0) && (negb (y mod 100 =? 0) || (y mod 400 =? 0)).

Definition days_in_month (y m : Z) : Z :=
  if m =? 2 then (if is_leap y then 29 else 28)
  else if (m =? 4) || (m =? 6) || (m =? 9) || (m =? 11) then 30
  else 31.

(** The range checks of the [datetime] constructor. *)
Definition valid_datetime (d : datetime) : bool :=
  (1 <=? year d) && (year d <=? 9999)
  && (1 <=? month d) && (month d <=? 12)
  && (1 <=? day d) && (day d <=? days_in_month (year d) (month d))
  && (0 <=? hour d) && (hour d <? 24)
  && (0 <=? minute d) && (minute d <? 60)
  && (0 <=? second d) && (second d <? 60)
  && (0 <=? microsecond d) && (microsecond d <? 1000000)
  && match utcoffset d with
     | None => true
     | Some off => (-1440 <? off) && (off <? 1440)
     end.

(** What [datetime.now(timezone.utc)] can return. *)
Definition valid_utc (d : datetime) : Prop :=
  valid_datetime d = true /\ utcoffset d = Some 0.

(** The decimal digit [d], for [0 <= d < 10]. *)
Definition digit (d : Z) : N := Z.to_N (48 + d).

(** ["%0<w>d" % n] for [0 <= n < 10 ^ w]: exactly [w] digits, most
    significant first. *)
Fixpoint zfill (w : nat) (n : Z) : str :=
  match w with
  | O => []
  | S w' => digit (n / 10 ^ Z.of_nat w') :: zfill w' (n mod 10 ^ Z.of_nat w')
  end.

Definition isoformat_fraction (us : Z) : str :=
  if us =? 0 then [] else py "." ++ zfill 6 us.

Definition isoformat_offset (tz : option Z) : str :=
  match tz with
  | None => []
  | Some off =>
      py (if off <? 0 then "-" else "+")
      ++ zfill 2 (Z.abs off / 60) ++ py ":" ++ zfill 2 (Z.abs off mod 60)
  end.

(** [d.isoformat()]: YYYY-MM-DDTHH:MM:SS[.ffffff][+HH:MM]; the fraction is
    left out when the microsecond is 0. *)
Definition isoformat (d : datetime) : str :=
  zfill 4 (year d) ++ py "-" ++ zfill 2 (month d) ++ py "-" ++ zfill 2 (day d)
  ++ py "T"
  ++ zfill 2 (hour d) ++ py ":" ++ zfill 2 (minute d) ++ py ":"
  ++ zfill 2 (second d)
  ++ isoformat_fraction (microsecond d)
  ++ isoformat_offset (utcoffset d).

(** Reading back: [w] decimal digits. *)
Fixpoint read_digits (w : nat) (acc : Z) (s : str) : option (Z * str) :=
  match w with
  | O => Some (acc, s)
  | S w' =>
      match s with
      | c :: s' =>
          if ((48 <=? c) && (c <=? 57))%N
          then read_digits w' (10 * acc + (Z.of_N c - 48)) s'
          else None
      | [] => None
      end
  end.

Definition read_char (c : N) (s : str) : option str :=
  match s with
  | c' :: s' => if (c =? c')%N then Some s' else None
  | [] => None
  end.

Definition read_any (s : str) : option str :=
  match s with
  | _ :: s' => Some s'
  | [] => None
  end.

Definition read_fraction (s : str) : option (Z * str) :=
  match s with
  | c :: s' => if (c =? 46)%N then read_digits 6 0 s' else Some (0, s)
  | [] => Some (0, s)
  end.

Definition read_offset (s : str) : option (option Z) :=
  match s with
  | [] => Some None
  | c :: s' =>
      if ((c =? 43) || (c =? 45))%N then
        '(h, s1) ← read_digits 2 0 s';
        s2 ← read_char 58%N s1;
        '(m, s3) ← read_digits 2 0 s2;
        match s3 with
        | [] => Some (Some ((if (c =? 45)%N then -1 else 1) * (h * 60 + m)))
        | _ => None
        end
      else None
  end.

(** [datetime.fromisoformat(s)] on the grammar [isoformat] writes (one
    separator character of any kind, six fraction digits, an offset in hours
    and minutes); [None] is its ValueError.  The fields are range-checked by
    the constructor. *)
Definition fromisoformat (s : str) : option datetime :=
  '(y, s) ← read_digits 4 0 s;
  s ← read_char 45%N s;
  '(mo, s) ← read_digits 2 0 s;
  s ← read_char 45%N s;
  '(d, s) ← read_digits 2 0 s;
  s ← read_any s;
  '(h, s) ← read_digits 2 0 s;
  s ← read_char 58%N s;
  '(mi, s) ← read_digits 2 0 s;
  s ← read_char 58%N s;
  '(sec, s) ← read_digits 2 0 s;
  '(us, s) ← read_fraction s;
  tz ← read_offset s;
  let dt := {| year := y; month := mo; day := d; hour := h; minute := mi;
               second := sec; microsecond := us; utcoffset := tz |} in
  if valid_datetime dt then Some dt else None.

(** The fields two datetimes of one tzinfo are compared by. *)
Definition datetime_fields (d : datetime) : list Z :=
  [year d; month d; day d; hour d; minute d; second d; microsecond d].

(** [a < b] for two datetimes of the same tzinfo. *)
Definition datetime_lt (a b : datetime) : Prop :=
  lexico (datetime_fields a) (datetime_fields b).

Definition datetime_le (a b : datetime) : Prop := ¬ datetime_lt b a.

(** ** Documents and the history models *)

(** The values a document of [db.history] or a returned dict holds. *)
Inductive value :=
  | VStr (s : str)
  | VObjectId (oid : N)
  | VDatetime (d : datetime).

#[global] Instance datetime_eq_dec : EqDecision datetime.
Proof. solve_decision. Defined.
#[global] Instance value_eq_dec : EqDecision value.
Proof. solve_decision. Defined.

Abbreviation document := (gmap str value).

Module HistoryCreate.
Record t := {
  original_text : str;
  rephrased_text : str;
  tone : str
}.
End HistoryCreate.

Module HistoryItem.
Record t := {
  id : str;
  original_text : str;
  rephrased_text : str;
  tone : str;
  timestamp : datetime
}.
End HistoryItem.

(** [history_obj.model_dump()] *)
Definition model_dump (h : HistoryItem.t) : document :=
  {[ py "id" := VStr (HistoryItem.id h);
     py "original_text" := VStr (HistoryItem.original_text h);
     py "rephrased_text" := VStr (HistoryItem.rephrased_text h);
     py "tone" := VStr (HistoryItem.tone h);
     py "timestamp" := VDatetime (HistoryItem.timestamp h) ]}.

(** ** The environment of a request and the mutable world *)

Record LlmChat := {
  api_key : str;
  session_id : str;
  system_message : str;
  model_provider : str;
  model_name : str
}.

(** What a request reads from outside the process. *)
Record Env := {
  EMERGENT_LLM_KEY : option str;          (* os.environ.get(...) *)
  llm_reply : LlmChat → str → result str; (* the provider's answer *)
  store_fault : option str;               (* the store driver's error, if any *)
  fresh_uuid : str;                       (* str(uuid.uuid4()) *)
  clock : datetime;                       (* datetime.now(timezone.utc) *)
  fresh_object_id : N                     (* the driver's ObjectId *)
}.

(** What a request can change. *)
Record World := {
  history : list document;                (* db.history, in natural order *)
  logged : list str;                      (* logger.error lines *)
  llm_calls : list (LlmChat * str)        (* outbound provider calls *)
}.

Definition M (A : Type) : Type := Env → World → result A * World.

#[global] Instance M_ret : MRet M := λ A a _ w, (Ok a, w).
#[global] Instance M_bind : MBind M := λ A B k m e w,
  match m e w with
  | (Ok a, w') => k a e w'
  | (Raise x, w') => (Raise x, w')
  end.

Definition raise {A} (x : exn) : M A := λ _ w, (Raise x, w).

(** [try: body / except Exception as x: handler x] *)
Definition try_except {A} (body : M A) (handler : exn → M A) : M A := λ e w,
  match body e w with
  | (Ok a, w') => (Ok a, w')
  | (Raise x, w') => handler x e w'
  end.

Definition environ_get_EMERGENT_LLM_KEY : M (option str) :=
  λ e w, (Ok (EMERGENT_LLM_KEY e), w).

Definition uuid4 : M str := λ e w, (Ok (fresh_uuid e), w).

Definition datetime_now_utc : M datetime := λ e w, (Ok (clock e), w).

Definition logger_error (line : str) : M unit := λ _ w,
  (Ok tt, {| history := history w; logged := logged w ++ [line];
             llm_calls := llm_calls w |}).

(** [await chat.send_message(UserMessage(text=...))]: one outbound call. *)
Definition send_message (chat : LlmChat) (user_text : str) : M str := λ e w,
  (llm_reply e chat user_text,
   {| history := history w; logged := logged w;
      llm_calls := llm_calls w ++ [(chat, user_text)] |}).

(** [d[k]] *)
Definition dict_getitem {V} (d : gmap str V) (k : str) : M V :=
  match d !! k with
  | Some v => mret v
  | None => raise (KeyError k)
  end.

(** [not s] for an optional string: [None] and the empty string are falsy. *)
Definition falsy (s : option str) : bool :=
  match s with
  | None | Some [] => true
  | Some _ => false
  end.

(** ** The document store *)

(** The key MongoDB sorts a field by: the rank of the BSON type first (a
    missing field counts as null; null < string < ObjectId < date), then the
    content.  Strings compare code point by code point, which is the order of
    their UTF-8 bytes. *)
Definition bson_key (v : option value) : nat * (str * list Z) :=
  match v with
  | None => (0%nat, ([], []))
  | Some (VStr s) => (1%nat, (s, []))
  | Some (VObjectId o) => (2%nat, ([o], []))
  | Some (VDatetime d) => (3%nat, ([], datetime_fields d))
  end.

(** [a] may come before [b] under [.sort(field, -1)]: its key is not
    smaller. *)
Definition desc_by (field : str) (a b : document) : Prop :=
  ¬ lexico (bson_key (a !! field)) (bson_key (b !! field)).

#[global] Instance desc_by_dec field a b : Decision (desc_by field a b).
Proof. unfold desc_by. apply _. Defined.

Definition store_call {A} (k : World → result A * World) : M A := λ e w,
  match store_fault e with
  | Some x => (Raise (Error x), w)
  | None => k w
  end.

(** [await db.history.insert_one(doc)]: the driver adds [_id]. *)
Definition insert_one (doc : document) : M document := λ e,
  store_call (λ w,
    let stored := <[py "_id" := VObjectId (fresh_object_id e)]> doc in
    (Ok stored,
     {| history := history w ++ [stored]; logged := logged w;
        llm_calls := llm_calls w |})) e.

(** [await db.history.find({}, {excluded: 0}).sort(field, -1).to_list(n)] *)
Definition find_sort_to_list (excluded field : str) (n : nat)
  : M (list document) :=
  store_call (λ w,
    (Ok (delete excluded <$> take n (merge_sort (desc_by field) (history w))),
     w)).

(** The collection without the first document whose [field] is [v]; [None]
    when no document matches. *)
Fixpoint remove_first (field : str) (v : value) (l : list document)
  : option (list document) :=
  match l with
  | [] => None
  | d :: l' =>
      if decide (d !! field = Some v) then Some l'
      else cons d <$> remove_first field v l'
  end.

(** [await db.history.delete_one({field: v})], returning [deleted_count]. *)
Definition delete_one (field : str) (v : value) : M Z :=
  store_call (λ w,
    match remove_first field v (history w) with
    | Some l => (Ok 1, {| history := l; logged := logged w;
                          llm_calls := llm_calls w |})
    | None => (Ok 0, w)
    end).

(** ** Routes *)

Definition prompt_formal : str :=
  py "You are an expert English writer. Rephrase the user's text into formal, professional, grammatically correct English that sounds natural and polished. Preserve the original meaning and context. Only return the rephrased text, nothing else.".

Definition prompt_conversational : str :=
  py "You are an expert English writer. Rephrase the user's text into natural, conversational, grammatically correct English that sounds human and friendly. Preserve the original meaning and context. Only return the rephrased text, nothing else.".

Definition prompt_academic : str :=
  py "You are an expert academic writer. Rephrase the user's text into scholarly, precise, grammatically correct English suitable for academic papers. Preserve the original meaning and context. Only return the rephrased text, nothing else.".

Definition prompt_creative : str :=
  py "You are a creative writer. Rephrase the user's text into engaging, expressive, grammatically correct English with a creative flair. Preserve the original meaning and context. Only return the rephrased text, nothing else.".

Definition tone_prompts : gmap str str :=
  {[ py "formal" := prompt_formal;
     py "conversational" := prompt_conversational;
     py "academic" := prompt_academic;
     py "creative" := prompt_creative ]}.

(** [tone_prompts.get(request.tone, tone_prompts["conversational"])] *)
Definition resolve_system_message (tone : str) : M str :=
  fallback ← dict_getitem tone_prompts (py "conversational");
  mret (default fallback (tone_prompts !! tone)).

Definition rephrase_text (request : RephraseRequest.t) : M RephraseResponse.t :=
  try_except
    (key ← environ_get_EMERGENT_LLM_KEY;
     if falsy key
     then raise (HTTPException 500 (py "API key not configured"))
     else
       prompt ← resolve_system_message (RephraseRequest.tone request);
       session ← uuid4;
       let chat := {| api_key := default [] key; session_id := session;
                      system_message := prompt;
                      model_provider := py "openai";
                      model_name := py "gpt-5" |} in
       response ← send_message chat (RephraseRequest.text request);
       let word_count := len (split response) in
       let char_count := len response in
       mret {| RephraseResponse.rephrased_text := response;
               RephraseResponse.original_text := RephraseRequest.text request;
               RephraseResponse.tone := RephraseRequest.tone request;
               RephraseResponse.word_count := word_count;
               RephraseResponse.char_count := char_count |})
    (λ x,
       _ ← logger_error (py "Error rephrasing text: " ++ exn_str x);
       raise (HTTPException 500 (py "Failed to rephrase text: " ++ exn_str x))).

(** [doc['timestamp'].isoformat()] *)
Definition value_isoformat (v : value) : M str :=
  match v with
  | VDatetime d => mret (isoformat d)
  | _ => raise (Error (py "object has no attribute 'isoformat'"))
  end.

Definition save_history (input : HistoryCreate.t) : M HistoryItem.t :=
  try_except
    (uid ← uuid4;
     now ← datetime_now_utc;
     let history_obj :=
       {| HistoryItem.id := uid;
          HistoryItem.original_text := HistoryCreate.original_text input;
          HistoryItem.rephrased_text := HistoryCreate.rephrased_text input;
          HistoryItem.tone := HistoryCreate.tone input;
          HistoryItem.timestamp := now |} in
     let doc := model_dump history_obj in
     ts ← dict_getitem doc (py "timestamp");
     iso ← value_isoformat ts;
     let doc := <[py "timestamp" := VStr iso]> doc in
     _ ← insert_one doc;
     mret history_obj)
    (λ x,
       _ ← logger_error (py "Error saving history: " ++ exn_str x);
       raise (HTTPException 500 (py "Failed to save history"))).

(** The body of the loop of [get_history] on one item. *)
Definition parse_timestamp (item : document) : M document :=
  ts ← dict_getitem item (py "timestamp");
  match ts with
  | VStr s =>
      match fromisoformat s with
      | Some d => mret (<[py "timestamp" := VDatetime d]> item)
      | None => raise (Error (py "Invalid isoformat string"))
      end
  | _ => mret item
  end.

Fixpoint for_each {A B} (f : A → M B) (l : list A) : M (list B) :=
  match l with
  | [] => mret []
  | a :: l' => b ← f a; bs ← for_each f l'; mret (b :: bs)
  end.

Definition get_history : M (list document) :=
  try_except
    (history_items ← find_sort_to_list (py "_id") (py "timestamp") 50;
     for_each parse_timestamp history_items)
    (λ x,
       _ ← logger_error (py "Error fetching history: " ++ exn_str x);
       raise (HTTPException 500 (py "Failed to fetch history"))).

Definition delete_history_item (history_id : str) : M (gmap str str) :=
  try_except
    (deleted_count ← delete_one (py "id") (VStr history_id);
     if deleted_count =? 0
     then raise (HTTPException 404 (py "History item not found"))
     else mret {[ py "message" := py "History item deleted" ]})
    (λ x,
       match x with
       | HTTPException _ _ => raise x
       | _ =>
           _ ← logger_error (py "Error deleting history: " ++ exn_str x);
           raise (HTTPException 500 (py "Failed to delete history"))
       end).

Definition root : M (gmap str str) :=
  mret {[ py "message" := py "TextHumanizer API" ]}.

(** ** The HTTP layer *)

Inductive content :=
  | RephraseJson (r : RephraseResponse.t)
  | HistoryItemJson (h : HistoryItem.t)
  | HistoryListJson (items : list document)
  | MessageJson (d : gmap str str)
  | DetailJson (detail : str)
  | ValidationErrorsJson.

Record response := {
  status : Z;
  body : content
}.

(** What the framework sends for the outcome of a handler: 200 with the
    returned value, the status and detail of a raised HTTPException, 500 for
    any other exception. *)
Definition respond {A} (wrap : A → content) (r : result A) : response :=
  match r with
  | Ok a => {| status := 200; body := wrap a |}
  | Raise (HTTPException c d) => {| status := c; body := DetailJson d |}
  | Raise _ =>
      {| status := 500; body := DetailJson (py "Internal Server Error") |}
  end.

Definition route {A} (wrap : A → content) (handler : M A)
  : Env → World → response * World := λ e w,
  let '(r, w') := handler e w in (respond wrap r, w').

Inductive request :=
  | GET_root
  | POST_rephrase (payload : json)
  | POST_history (input : HistoryCreate.t)
  | GET_history
  | DELETE_history (history_id : str).

(** One request served: the body of [POST /rephrase] is validated first, and
    a body that fails validation is answered 422 without running the
    handler.  The body of [POST /history] is given as validated. *)
Definition serve (r : request) : Env → World → response * World :=
  match r with
  | GET_root => route MessageJson root
  | POST_rephrase payload =>
      match validate_RephraseRequest payload with
      | Some req => route RephraseJson (rephrase_text req)
      | None => λ _ w, ({| status := 422; body := ValidationErrorsJson |}, w)
      end
  | POST_history input => route HistoryItemJson (save_history input)
  | GET_history => route HistoryListJson get_history
  | DELETE_history history_id =>
      route MessageJson (delete_history_item history_id)
  end.

(** ** The states the service can bring the store to *)

(** [uid] is the id of no document of the collection. *)
Definition unused_id (uid : str) (l : list document) : Prop :=
  Forall (λ d, d !! py "id" ≠ Some (VStr uid)) l.

(** What the environment guarantees when a request is served: the clock
    reads a UTC datetime, and a generated UUID is not in use. *)
Definition env_sound (e : Env) (w : World) : Prop :=
  valid_utc (clock e) ∧ unused_id (fresh_uuid e) (history w).

Definition startup : World :=
  {| history := []; logged := []; llm_calls := [] |}.

Inductive reachable : World → Prop :=
  | reachable_startup : reachable startup
  | reachable_serve r e w :
      reachable w → env_sound e w → reachable (serve r e w).2.

(** ** Vocabulary of the properties *)

(** The chat [rephrase_text] sets up for a request. *)
Definition chat_for (request : RephraseRequest.t) (e : Env) : LlmChat :=
  {| api_key := default [] (EMERGENT_LLM_KEY e);
     session_id := fresh_uuid e;
     system_message :=
       default prompt_conversational
               (tone_prompts !! RephraseRequest.tone request);
     model_provider := py "openai";
     model_name := py "gpt-5" |}.

Definition with_call (w : World) (call : LlmChat * str) : World :=
  {| history := history w; logged := logged w;
     llm_calls := llm_calls w ++ [call] |}.

Definition with_log (w : World) (line : str) : World :=
  {| history := history w; logged := logged w ++ [line];
     llm_calls := llm_calls w |}.

(** The record [save_history] builds, and the document it stores for it. *)
Definition new_item (input : HistoryCreate.t) (e : Env) : HistoryItem.t :=
  {| HistoryItem.id := fresh_uuid e;
     HistoryItem.original_text := HistoryCreate.original_text input;
     HistoryItem.rephrased_text := HistoryCreate.rephrased_text input;
     HistoryItem.tone := HistoryCreate.tone input;
     HistoryItem.timestamp := clock e |}.

Definition stored (oid : N) (h : HistoryItem.t) : document :=
  <[py "_id" := VObjectId oid]>
    (<[py "timestamp" := VStr (isoformat (HistoryItem.timestamp h))]>
       (model_dump h)).

Definition with_history (w : World) (l : list document) : World :=
  {| history := l; logged := logged w; llm_calls := llm_calls w |}.

Definition deleted_message : gmap str str :=
  {[ py "message" := py "History item deleted" ]}.

(** A document the history-create route wrote. *)
Definition written_by_service (d : document) : Prop :=
  ∃ oid h, valid_utc (HistoryItem.timestamp h) ∧ d = stored oid h.

(** The invariant of the collection: every document was written by the
    create route, and no two documents carry the same id. *)
Definition store_inv (l : list document) : Prop :=
  Forall written_by_service l ∧ NoDup ((λ d, d !! py "id") <$> l).

(** Some document of the collection carries the id. *)
Definition has_id (history_id : str) (l : list document) : Prop :=
  Exists (λ d, d !! py "id" = Some (VStr history_id)) l.

Definition not_found : response :=
  {| status := 404; body := DetailJson (py "History item not found") |}.

Definition deleted : response :=
  {| status := 200; body := MessageJson deleted_message |}.

(** Records from the most recent to the oldest: no record is older than one
    that comes after it. *)
Definition newest_first (hs : list HistoryItem.t) : Prop :=
  StronglySorted
    (λ a b, datetime_le (HistoryItem.timestamp b) (HistoryItem.timestamp a)) hs.

Definition semantic_fields : gset str :=
  {[ py "id"; py "original_text"; py "rephrased_text"; py "tone";
     py "timestamp" ]}.

(** The timestamp of a stored document is strictly earlier than [now]. *)
Definition older_than (now : datetime) (d : document) : Prop :=
  ∃ ts, valid_utc ts
        ∧ d !! py "timestamp" = Some (VStr (isoformat ts))
        ∧ datetime_lt ts now.

(** A document whose timestamp is the isoformat string of a UTC datetime. *)
Definition iso_timestamped (d : document) : Prop :=
  ∃ ts, valid_utc ts ∧ d !! py "timestamp" = Some (VStr (isoformat ts)).

(** ** Sample data *)

Definition new_year_2026 : datetime :=
  {| year := 2026; month := 1; day := 1; hour := 0; minute := 0; second := 0;
     microsecond := 0; utcoffset := Some 0 |}.

(** The last half second of 2025. *)
Definition half_past : datetime :=
  {| year := 2025; month := 12; day := 31; hour := 23; minute := 59;
     second := 59; microsecond := 500000; utcoffset := Some 0 |}.

(** A request environment: the credential is configured, the provider
    answers with the text it was sent, the store is up. *)
Definition sample_env : Env :=
  {| EMERGENT_LLM_KEY := Some (py "sk-test");
     llm_reply := λ _ user_text, Ok user_text;
     store_fault := None;
     fresh_uuid := py "0b9c3c0e-0000-4000-8000-000000000001";
     clock := new_year_2026;
     fresh_object_id := 1%N |}.

Definition two_words_request : RephraseRequest.t :=
  {| RephraseRequest.text := py " hello  world ";
     RephraseRequest.tone := py "formal" |}.

Definition poetic_request : RephraseRequest.t :=
  {| RephraseRequest.text := py "Hey there!";
     RephraseRequest.tone := py "poetic" |}.

(** The body the repository's test [test_rephrase_empty_text] posts. *)
Definition empty_text_payload : json :=
  JObject {[ py "text" := JString [];
             py "tone" := JString (py "conversational") ]}.

(** An environment whose provider call raises an exception with the given
    text. *)
Definition provider_failing (cause : str) : Env :=
  {| EMERGENT_LLM_KEY := Some (py "sk-test");
     llm_reply := λ _ _, Raise (Error cause);
     store_fault := None;
     fresh_uuid := py "0b9c3c0e-0000-4000-8000-000000000002";
     clock := new_year_2026;
     fresh_object_id := 2%N |}.

(** The body the repository's test [test_save_history] posts. *)
Definition sample_input : HistoryCreate.t :=
  {| HistoryCreate.original_text := py "Test original text";
     HistoryCreate.rephrased_text := py "Test rephrased text";
     HistoryCreate.tone := py "conversational" |}.

Definition one_second_later : datetime :=
  {| year := 2026; month := 1; day := 1; hour := 0; minute := 0; second := 1;
     microsecond := 0; utcoffset := Some 0 |}.

Definition later_env : Env :=
  {| EMERGENT_LLM_KEY := Some (py "sk-test");
     llm_reply := λ _ user_text, Ok user_text;
     store_fault := None;
     fresh_uuid := py "0b9c3c0e-0000-4000-8000-000000000000";
     clock := one_second_later;
     fresh_object_id := 0%N |}.

(** The state after one create served from startup at 00:00:01. *)
Definition world_one : World :=
  (serve (POST_history sample_input) later_env startup).2.

(** The state after a second create, served with the clock reading one
    second less than at the first. *)
Definition world_two : World :=
  (serve (POST_history sample_input) sample_env world_one).2.

Definition half_past_env : Env :=
  {| EMERGENT_LLM_KEY := Some (py "sk-test");
     llm_reply := λ _ user_text, Ok user_text;
     store_fault := None;
     fresh_uuid := py "0b9c3c0e-0000-4000-8000-000000000003";
     clock := half_past;
     fresh_object_id := 3%N |}.

(** ** Cross-origin configuration *)

(** [s.split(sep)] for a separator of one character: the pieces between the
    separators, empty pieces included; the empty string gives one empty
    piece. *)
Fixpoint split_on (sep : N) (s : str) : list str :=
  match s with
  | [] => [[]]
  | c :: s' =>
      if (c =? sep)%N then [] :: split_on sep s'
      else match split_on sep s' with
           | piece :: pieces => (c :: piece) :: pieces
           | [] => [[c]]
           end
  end.

(** [os.environ.get('CORS_ORIGINS', '*').split(',')], the [allow_origins] of
    the CORS middleware, from the variable as the process finds it. *)
Definition allow_origins (CORS_ORIGINS : option str) : list str :=
  split_on 44%N (default (py "*") CORS_ORIGINS).

(** [sep.join(pieces)] for a separator of one character. *)
Fixpoint join_with (sep : N) (pieces : list str) : str :=
  match pieces with
  | [] => []
  | [piece] => piece
  | piece :: rest => piece ++ sep :: join_with sep rest
  end.

(** ** More vocabulary and sample data *)

(** The exception [rephrase_text] raises for a missing credential. *)
Definition credential_missing : exn :=
  HTTPException 500 (py "API key not configured").

(** An environment without the credential whose provider would answer. *)
Definition no_credential_env : Env :=
  {| EMERGENT_LLM_KEY := None;
     llm_reply := λ _ user_text, Ok user_text;
     store_fault := None;
     fresh_uuid := py "0b9c3c0e-0000-4000-8000-000000000004";
     clock := new_year_2026;
     fresh_object_id := 4%N |}.

(** An environment whose store driver raises. *)
Definition store_down_env : Env :=
  {| EMERGENT_LLM_KEY := Some (py "sk-test");
     llm_reply := λ _ user_text, Ok user_text;
     store_fault := Some (py "ServerSelectionTimeoutError");
     fresh_uuid := py "0b9c3c0e-0000-4000-8000-000000000005";
     clock := new_year_2026;
     fresh_object_id := 5%N |}.

(** The routes that go to the store. *)
Definition history_route (r : request) : bool :=
  match r with
  | POST_history _ | GET_history | DELETE_history _ => true
  | _ => false
  end.

(** The fixed detail each history route answers a store error with. *)
Definition generic_detail (r : request) : str :=
  match r with
  | POST_history _ => py "Failed to save history"
  | GET_history => py "Failed to fetch history"
  | DELETE_history _ => py "Failed to delete history"
  | _ => []
  end.

(** A collection holding one document that has no timestamp. *)
Definition untimed_world : World :=
  {| history := [ {[ py "id" := VStr (py "legacy") ]} ];
     logged := []; llm_calls := [] |}.

(** * The API tester of [backend_test.py] *)

(** What [response.json()] does: return a value, or raise with a text. *)
Inductive json_read :=
  | JsonValue (v : json)
  | JsonError (message : str).

(** What one HTTP exchange of the [requests] library comes to: a response
    with its status code, its text and the behaviour of [response.json()],
    a timeout, or any other exception with its text. *)
Inductive http_outcome :=
  | HttpResponse (status_code : Z) (text : str) (json_body : json_read)
  | HttpTimeout
  | HttpError (message : str).

(** What the tester reads from outside: the n-th reading of
    [datetime.now()] and the outcome of the n-th request, given its method,
    URL, JSON body and timeout. *)
Record TestEnv := {
  local_now : nat → datetime;
  http : nat → str → str → option json → Z → http_outcome
}.

(** The tester object, with what it printed and how often it read the clock
    and sent a request. *)
Record Tester := {
  base_url : str;
  tests_run : Z;
  tests_passed : Z;
  test_results : list (gmap str str);
  stdout : list str;
  clock_reads : nat;
  requests_sent : nat
}.

(** [TextHumanizerAPITester(base_url)] *)
Definition new_tester (url : str) : Tester :=
  {| base_url := url; tests_run := 0; tests_passed := 0; test_results := [];
     stdout := []; clock_reads := O; requests_sent := O |}.

Inductive test_exn :=
  | Timeout
  | OtherException (message : str).

Inductive test_result (A : Type) :=
  | Returned (a : A)
  | Raised (x : test_exn).
Arguments Returned {A} a.
Arguments Raised {A} x.

Definition T (A : Type) : Type := TestEnv → Tester → test_result A * Tester.

#[global] Instance T_ret : MRet T := λ A a _ t, (Returned a, t).
#[global] Instance T_bind : MBind T := λ A B k m env t,
  match m env t with
  | (Returned a, t') => k a env t'
  | (Raised x, t') => (Raised x, t')
  end.

Definition print (line : str) : T unit := λ _ t,
  (Returned tt,
   {| base_url := base_url t; tests_run := tests_run t;
      tests_passed := tests_passed t; test_results := test_results t;
      stdout := stdout t ++ [line]; clock_reads := clock_reads t;
      requests_sent := requests_sent t |}).

Definition log_test (name : str) (success : bool) (details : str) : T bool :=
  λ env t,
  let run := tests_run t + 1 in
  let passed := if success then tests_passed t + 1 else tests_passed t in
  let result : gmap str str :=
    {[ py "test" := name;
       py "status" := py (if success then "PASS" else "FAIL");
       py "details" := details;
       py "timestamp" := isoformat (local_now env (clock_reads t)) ]} in
  let status_icon : str := if success then [9989%N] else [10060%N] in
  (Returned success,
   {| base_url := base_url t; tests_run := run; tests_passed := passed;
      test_results := test_results t ++ [result];
      stdout := stdout t ++ [status_icon ++ py " " ++ name ++ py ": " ++ details];
      clock_reads := S (clock_reads t);
      requests_sent := requests_sent t |}).

(** [requests.get], [requests.post] and [requests.delete]: one request
    sent; a timeout or another failure is raised. *)
Definition send (method url : str) (data : option json) (timeout : Z)
  : T (Z * str * json_read) := λ env t,
  let t' := {| base_url := base_url t; tests_run := tests_run t;
               tests_passed := tests_passed t; test_results := test_results t;
               stdout := stdout t; clock_reads := clock_reads t;
               requests_sent := S (requests_sent t) |} in
  match http env (requests_sent t) method url data timeout with
  | HttpResponse code text body => (Returned (code, text, body), t')
  | HttpTimeout => (Raised Timeout, t')
  | HttpError message => (Raised (OtherException message), t')
  end.

Definition test_raise {A} (x : test_exn) : T A := λ _ t, (Raised x, t).

Definition test_try {A} (body : T A) (handler : test_exn → T A) : T A :=
  λ env t,
  match body env t with
  | (Returned a, t') => (Returned a, t')
  | (Raised x, t') => handler x env t'
  end.

Section Tester.

(** [json.dumps(value, indent=2)] *)
Variable json_dumps : json → str.

Definition run_test (name method endpoint : str) (expected_status : Z)
    (data : option json) (timeout : Z) : T (bool * json) := λ env t,
  let url := match endpoint with
             | [] => base_url t ++ py "/api"
             | _ => base_url t ++ py "/api/" ++ endpoint
             end in
  (_ ← print ([10%N; 128269%N] ++ py " Testing " ++ name ++ py "...");
   _ ← print (py "   URL: " ++ url);
   test_try
     ('(code, text, body) ←
         (if decide (method = py "GET") then send method url None timeout
          else if decide (method = py "POST") then send method url data timeout
          else if decide (method = py "DELETE") then send method url None timeout
          else test_raise
                 (OtherException
                    (py "cannot access local variable 'response' where it is not associated with a value")));
      let success := code =? expected_status in
      let details :=
        if success then
          match body with
          | JsonValue response_data =>
              py "Status: " ++ py (pretty code) ++ py ", Response: "
              ++ take 200 (json_dumps response_data) ++ py "..."
          | JsonError _ =>
              py "Status: " ++ py (pretty code) ++ py ", Response: "
              ++ take 200 text ++ py "..."
          end
        else
          py "Expected " ++ py (pretty expected_status) ++ py ", got "
          ++ py (pretty code) ++ py ". Response: " ++ take 200 text
          ++ py "..." in
      _ ← log_test name success details;
      if success && negb (bool_decide (text = []))
      then match body with
           | JsonValue response_data => mret (success, response_data)
           | JsonError message => test_raise (OtherException message)
           end
      else mret (success, JObject ∅))
     (λ x,
        match x with
        | Timeout =>
            _ ← log_test name false
                  (py "Request timed out after " ++ py (pretty timeout)
                   ++ py " seconds");
            mret (false, JObject ∅)
        | OtherException message =>
            _ ← log_test name false (py "Error: " ++ message);
            mret (false, JObject ∅)
        end)) env t.

End Tester.

(** The results of the tester that passed. *)
Definition passed_results (t : Tester) : list (gmap str str) :=
  filter (λ r, r !! py "status" = Some (py "PASS")) (test_results t).

(** The counters of the tester agree with its list of results. *)
Definition tester_consistent (t : Tester) : Prop :=
  tests_run t = len (test_results t)
  ∧ tests_passed t = len (passed_results t)
  ∧ Forall (λ r, r !! py "status" = Some (py "PASS")
                 ∨ r !! py "status" = Some (py "FAIL")) (test_results t).

(** A service that answers every request 200 with a body that is not
    JSON. *)
Definition html_env : TestEnv :=
  {| local_now := λ _, {| year := 2026; month := 1; day := 1; hour := 12;
                          minute := 0; second := 0; microsecond := 0;
                          utcoffset := None |};
     http := λ _ _ _ _ _,
       HttpResponse 200 (py "<html></html>")
         (JsonError (py "Expecting value: line 1 column 1 (char 0)")) |}.

(** The URL [run_test] requests. *)
Definition test_url (t : Tester) (endpoint : str) : str :=
  match endpoint with
  | [] => base_url t ++ py "/api"
  | _ => base_url t ++ py "/api/" ++ endpoint
  end.

(** The methods [run_test] sends a request for, and the body it sends. *)
Definition known_method (method : str) : bool :=
  bool_decide (method ∈ [py "GET"; py "POST"; py "DELETE"]).

Definition sent_body (method : str) (data : option json) : option json :=
  if decide (method = py "POST") then data else None.

(** The exchange [run_test] goes through, if it sends a request. *)
Definition exchange (env : TestEnv) (t : Tester) (method endpoint : str)
    (data : option json) (timeout : Z) : option http_outcome :=
  if known_method method
  then Some (http env (requests_sent t) method (test_url t endpoint)
               (sent_body method data) timeout)
  else None.

(** The exchange is a response with the expected status whose body is not
    empty and is not JSON. *)
Definition passes_without_json (o : option http_outcome) (expected_status : Z)
    : Prop :=
  ∃ text message,
    o = Some (HttpResponse expected_status text (JsonError message))
    ∧ text ≠ [].

(** The tester after the two lines [run_test] prints first, and after a
    request was sent. *)
Definition announced (t : Tester) (name endpoint : str) : Tester :=
  {| base_url := base_url t; tests_run := tests_run t;
     tests_passed := tests_passed t; test_results := test_results t;
     stdout := (stdout t
                ++ [[10%N; 128269%N] ++ py " Testing " ++ name ++ py "..."])
               ++ [py "   URL: " ++ test_url t endpoint];
     clock_reads := clock_reads t; requests_sent := requests_sent t |}.

Definition after_request (t : Tester) : Tester :=
  {| base_url := base_url t; tests_run := tests_run t;
     tests_passed := tests_passed t; test_results := test_results t;
     stdout := stdout t; clock_reads := clock_reads t;
     requests_sent := S (requests_sent t) |}.

(** The details [run_test] logs for a response. *)
Definition response_details (json_dumps : json → str) (expected_status : Z)
    (code : Z) (text : str) (body : json_read) : str :=
  if code =? expected_status then
    match body with
    | JsonValue response_data =>
        py "Status: " ++ py (pretty code) ++ py ", Response: "
        ++ take 200 (json_dumps response_data) ++ py "..."
    | JsonError _ =>
        py "Status: " ++ py (pretty code) ++ py ", Response: "
        ++ take 200 text ++ py "..."
    end
  else
    py "Expected " ++ py (pretty expected_status) ++ py ", got "
    ++ py (pretty code) ++ py ". Response: " ++ take 200 text ++ py "...".

(** The details [run_test] logs when the exchange raises, or when no request
    is sent for the method. *)
Definition failure_details (timeout : Z) (o : option http_outcome) : str :=
  match o with
  | Some HttpTimeout =>
      py "Request timed out after " ++ py (pretty timeout) ++ py " seconds"
  | Some (HttpError message) => py "Error: " ++ message
  | _ =>
      py "Error: "
      ++ py "cannot access local variable 'response' where it is not associated with a value"
  end.

(** The tester after [log_test]. *)
Definition logged_test (env : TestEnv) (t : Tester) (name : str)
    (success : bool) (details : str) : Tester :=
  (log_test name success details env t).2.

(** * Properties *)

(** ** Tone templates *)

Lemma tone_prompts_lookup (tone : str) :
  tone_prompts !! tone =
    if decide (tone = py "formal") then Some prompt_formal
    else if decide (tone = py "conversational") then Some prompt_conversational
    else if decide (tone = py "academic") then Some prompt_academic
    else if decide (tone = py "creative") then Some prompt_creative
    else None.
Proof.
  unfold tone_prompts.
  repeat case_decide; subst; try reflexivity.
  rewrite !lookup_insert_ne by congruence.
  by rewrite lookup_singleton_ne.
Qed.

Lemma resolve_system_message_run (tone : str) (e : Env) (w : World) :
  resolve_system_message tone e w =
    (Ok (default prompt_conversational (tone_prompts !! tone)), w).
Proof. reflexivity. Qed.

(** ** Word and character counts *)

Lemma split_from_length (s tok : str) :
  length (split_from tok s) =
    match tok with
    | [] => token_starts true s
    | _ => S (token_starts false s)
    end.
Proof.
  revert tok. induction s as [|c s IH]; intros tok; simpl.
  - by destruct tok.
  - destruct (isspace c) eqn:Hc; simpl.
    + destruct tok; simpl; by rewrite IH.
    + rewrite IH. by destruct tok.
Qed.

Lemma split_length (s : str) :
  length (split s) = whitespace_delimited_tokens s.
Proof. apply (split_from_length s []). Qed.

(** A word of [split] is never empty and holds no whitespace. *)
Lemma split_from_words (s tok : str) :
  Forall (λ c, isspace c = false) tok →
  Forall (λ word, word ≠ [] ∧ Forall (λ c, isspace c = false) word)
         (split_from tok s).
Proof.
  revert tok. induction s as [|c s IH]; intros tok Htok; simpl.
  - destruct tok as [|c' tok]; constructor; [|constructor].
    split; [|by apply Forall_rev].
    intros Hnil. apply (f_equal length) in Hnil.
    rewrite length_rev in Hnil. discriminate Hnil.
  - destruct (isspace c) eqn:Hc.
    + destruct tok as [|c' tok]; [by apply IH|].
      constructor; [|by apply IH].
      split; [|by apply Forall_rev].
      intros Hnil. apply (f_equal length) in Hnil.
      rewrite length_rev in Hnil. discriminate Hnil.
    + apply IH. by constructor.
Qed.

(** ** The rephrase route, step by step *)

Lemma rephrase_text_run (request : RephraseRequest.t) (e : Env) (w : World) :
  rephrase_text request e w =
    if falsy (EMERGENT_LLM_KEY e) then
      let x := HTTPException 500 (py "API key not configured") in
      (Raise (HTTPException 500 (py "Failed to rephrase text: " ++ exn_str x)),
       with_log w (py "Error rephrasing text: " ++ exn_str x))
    else
      let call := (chat_for request e, RephraseRequest.text request) in
      match llm_reply e (chat_for request e) (RephraseRequest.text request) with
      | Ok response =>
          (Ok {| RephraseResponse.rephrased_text := response;
                 RephraseResponse.original_text := RephraseRequest.text request;
                 RephraseResponse.tone := RephraseRequest.tone request;
                 RephraseResponse.word_count := len (split response);
                 RephraseResponse.char_count := len response |},
           with_call w call)
      | Raise x =>
          (Raise (HTTPException 500
                    (py "Failed to rephrase text: " ++ exn_str x)),
           with_log (with_call w call) (py "Error rephrasing text: " ++ exn_str x))
      end.
Proof.
  unfold rephrase_text, try_except, mbind, M_bind,
    environ_get_EMERGENT_LLM_KEY.
  destruct (falsy (EMERGENT_LLM_KEY e)) eqn:Hkey; [reflexivity|].
  rewrite resolve_system_message_run.
  unfold uuid4, send_message, chat_for.
  destruct (llm_reply e _ _); reflexivity.
Qed.

(** With the credential configured and an answer from the provider the
    route returns. *)
Lemma rephrase_text_returns (request : RephraseRequest.t) (e : Env) (w : World)
    (completion : str) :
  falsy (EMERGENT_LLM_KEY e) = false →
  llm_reply e (chat_for request e) (RephraseRequest.text request)
    = Ok completion →
  ∃ resp,
    rephrase_text request e w
      = (Ok resp, with_call w (chat_for request e, RephraseRequest.text request))
    ∧ RephraseResponse.rephrased_text resp = completion.
Proof.
  intros Hkey Hreply. rewrite rephrase_text_run, Hkey, Hreply.
  eexists. split; reflexivity.
Qed.

Lemma rephrase_text_Ok_inv (request : RephraseRequest.t) (e : Env)
    (w w' : World) (resp : RephraseResponse.t) :
  rephrase_text request e w = (Ok resp, w') →
  falsy (EMERGENT_LLM_KEY e) = false
  ∧ llm_reply e (chat_for request e) (RephraseRequest.text request)
      = Ok (RephraseResponse.rephrased_text resp)
  ∧ w' = with_call w (chat_for request e, RephraseRequest.text request)
  ∧ resp =
      {| RephraseResponse.rephrased_text := RephraseResponse.rephrased_text resp;
         RephraseResponse.original_text := RephraseRequest.text request;
         RephraseResponse.tone := RephraseRequest.tone request;
         RephraseResponse.word_count :=
           len (split (RephraseResponse.rephrased_text resp));
         RephraseResponse.char_count :=
           len (RephraseResponse.rephrased_text resp) |}.
Proof.
  rewrite rephrase_text_run.
  destruct (falsy (EMERGENT_LLM_KEY e)); [discriminate|].
  destruct (llm_reply e _ _) as [response|x] eqn:Hreply; [|discriminate].
  intros [= <- <-]. simpl. done.
Qed.

(** C3.  When the rephrase route returns, the text it returns is the
    completion the provider gave, its word_count is the number of
    whitespace-delimited tokens of that completion, its char_count is the
    number of characters of the completion, and neither is negative. *)
Theorem rephrase_counts (request : RephraseRequest.t) (e : Env) (w w' : World)
    (resp : RephraseResponse.t) :
  rephrase_text request e w = (Ok resp, w') →
  let completion := RephraseResponse.rephrased_text resp in
  llm_reply e (chat_for request e) (RephraseRequest.text request)
    = Ok completion
  ∧ RephraseResponse.word_count resp
      = Z.of_nat (whitespace_delimited_tokens completion)
  ∧ RephraseResponse.char_count resp = Z.of_nat (length completion)
  ∧ 0 ≤ RephraseResponse.word_count resp
  ∧ 0 ≤ RephraseResponse.char_count resp.
Proof.
  intros Hrun completion.
  apply rephrase_text_Ok_inv in Hrun as (_ & Hreply & _ & ->).
  simpl. unfold len. rewrite split_length.
  repeat split; [exact Hreply|lia..].
Qed.

Lemma rephrase_counts_witness :
  ∃ resp w',
    rephrase_text two_words_request sample_env startup = (Ok resp, w')
    ∧ RephraseResponse.rephrased_text resp = py " hello  world "
    ∧ RephraseResponse.word_count resp = 2
    ∧ RephraseResponse.char_count resp = 14.
Proof.
  destruct (rephrase_text two_words_request sample_env startup)
    as [[resp|x] w'] eqn:Hrun; [|vm_compute in Hrun; discriminate Hrun].
  exists resp, w'. split; [reflexivity|].
  destruct (rephrase_counts two_words_request sample_env startup w' resp Hrun)
    as (Hreply & Hwords & Hchars & _ & _).
  simpl in Hreply. injection Hreply as Htext.
  rewrite Hwords, Hchars, <- Htext. repeat split.
Defined.

(** ** What the rephrase route changes *)

Lemma rephrase_text_frame (request : RephraseRequest.t) (e : Env) (w : World) :
  history (rephrase_text request e w).2 = history w
  ∧ (llm_calls (rephrase_text request e w).2 = llm_calls w
     ∨ llm_calls (rephrase_text request e w).2
         = llm_calls w ++ [(chat_for request e, RephraseRequest.text request)]).
Proof.
  rewrite rephrase_text_run.
  destruct (falsy (EMERGENT_LLM_KEY e)); simpl; [auto|].
  destruct (llm_reply e _ _); simpl; auto.
Qed.

(** ** The template a rephrase request is served with *)

(** C1.  For every rephrase request, resolving the system instruction for
    its tone raises nothing, leaves the world alone and yields one of the
    four fixed templates: the formal, conversational, academic or creative
    template for exactly those tone strings, and the conversational template
    for every other tone string; a provider call made for the request carries
    that template as its system message. *)
Theorem tone_template_selection (request : RephraseRequest.t) (e : Env)
    (w : World) :
  ∃ prompt,
    resolve_system_message (RephraseRequest.tone request) e w = (Ok prompt, w)
    ∧ (∀ chat user_text,
         llm_calls (rephrase_text request e w).2
           = llm_calls w ++ [(chat, user_text)] →
         system_message chat = prompt)
    ∧ prompt ∈ [prompt_formal; prompt_conversational; prompt_academic;
                prompt_creative]
    ∧ (RephraseRequest.tone request = py "formal" → prompt = prompt_formal)
    ∧ (RephraseRequest.tone request = py "conversational" →
       prompt = prompt_conversational)
    ∧ (RephraseRequest.tone request = py "academic" →
       prompt = prompt_academic)
    ∧ (RephraseRequest.tone request = py "creative" →
       prompt = prompt_creative)
    ∧ (RephraseRequest.tone request
         ∉ [py "formal"; py "conversational"; py "academic"; py "creative"] →
       prompt = prompt_conversational).
Proof.
  eexists. split; [apply resolve_system_message_run|]. split.
  { intros chat user_text Hcalls.
    destruct (rephrase_text_frame request e w) as [_ [Hsame|Hone]].
    - rewrite Hsame in Hcalls. apply (f_equal length) in Hcalls.
      rewrite length_app in Hcalls. simpl in Hcalls. lia.
    - rewrite Hone in Hcalls. apply app_inv_head in Hcalls.
      by injection Hcalls as <- _. }
  rewrite tone_prompts_lookup.
  repeat case_decide; simpl;
    (split; [set_solver|]);
    repeat split; intros Habs; try reflexivity;
    try congruence;
    try (exfalso; apply Habs; set_solver);
    try (exfalso;
         match goal with
         | H1 : ?t = py ?a, H2 : ?t = py ?b |- _ =>
             assert (py a = py b) as Hc by congruence;
             vm_compute in Hc; discriminate Hc
         end).
Qed.

(** The conversational fallback on a tone the table does not know. *)
Lemma tone_template_selection_witness :
  ∃ prompt,
    resolve_system_message (py "poetic") sample_env startup
      = (Ok prompt, startup)
    ∧ prompt = prompt_conversational.
Proof.
  destruct (tone_template_selection
              {| RephraseRequest.text := py "Hey there!";
                 RephraseRequest.tone := py "poetic" |} sample_env startup)
    as (prompt & Hrun & _ & _ & _ & _ & _ & _ & Hother).
  exists prompt. split; [exact Hrun|].
  apply Hother. vm_compute. intros Hin.
  repeat (apply elem_of_cons in Hin as [Hin|Hin]; [discriminate Hin|]).
  by apply elem_of_nil in Hin.
Defined.

(** ** The rephrase route and the history store *)

(** C8.  Serving a rephrase request, whatever its body and whether it is
    answered 200, 422 or 500, leaves the history collection as it was, and
    makes at most one outbound provider call. *)
Theorem rephrase_performs_no_persistence (payload : json) (e : Env) (w : World) :
  history (serve (POST_rephrase payload) e w).2 = history w
  ∧ (llm_calls (serve (POST_rephrase payload) e w).2 = llm_calls w
     ∨ ∃ call,
         llm_calls (serve (POST_rephrase payload) e w).2
           = llm_calls w ++ [call]).
Proof.
  simpl. destruct (validate_RephraseRequest payload) as [req|]; simpl; [|auto].
  unfold route.
  destruct (rephrase_text_frame req e w) as [Hhist Hcalls].
  destruct (rephrase_text req e w) as [r w']; simpl in *.
  split; [exact Hhist|]. destruct Hcalls; eauto.
Qed.

(** C9.  When the rephrase route returns, the response carries the request's
    text as original_text and the request's tone string as tone, both
    unchanged, while the one call made to the provider carried the template
    looked up for that tone with the conversational template as default: for
    a tone outside the table the provider saw the conversational template and
    the response still names the tone as sent. *)
Theorem rephrase_echoes_request (request : RephraseRequest.t) (e : Env)
    (w w' : World) (resp : RephraseResponse.t) :
  rephrase_text request e w = (Ok resp, w') →
  RephraseResponse.original_text resp = RephraseRequest.text request
  ∧ RephraseResponse.tone resp = RephraseRequest.tone request
  ∧ ∃ chat,
      llm_calls w' = llm_calls w ++ [(chat, RephraseRequest.text request)]
      ∧ system_message chat
          = default prompt_conversational
                    (tone_prompts !! RephraseRequest.tone request)
      ∧ (RephraseRequest.tone request
           ∉ [py "formal"; py "conversational"; py "academic"; py "creative"] →
         system_message chat = prompt_conversational).
Proof.
  intros Hrun.
  apply rephrase_text_Ok_inv in Hrun as (_ & _ & -> & ->). simpl.
  split; [reflexivity|]. split; [reflexivity|].
  exists (chat_for request e). split; [reflexivity|]. split; [reflexivity|].
  intros Hother. simpl. rewrite tone_prompts_lookup.
  repeat case_decide; try reflexivity; exfalso; apply Hother; set_solver.
Qed.

Lemma rephrase_echoes_request_witness :
  ∃ resp w',
    rephrase_text poetic_request sample_env startup = (Ok resp, w')
    ∧ RephraseResponse.original_text resp = py "Hey there!"
    ∧ RephraseResponse.tone resp = py "poetic"
    ∧ ∃ chat,
        llm_calls w' = [(chat, py "Hey there!")]
        ∧ system_message chat = prompt_conversational.
Proof.
  destruct (rephrase_text poetic_request sample_env startup)
    as [[resp|x] w'] eqn:Hrun; [|vm_compute in Hrun; discriminate Hrun].
  exists resp, w'. split; [reflexivity|].
  destruct (rephrase_echoes_request poetic_request sample_env startup w' resp
              Hrun) as (Htext & Htone & chat & Hcalls & _ & Hfallback).
  split; [exact Htext|]. split; [exact Htone|].
  exists chat. split; [exact Hcalls|].
  apply Hfallback. vm_compute. intros Hin.
  repeat (apply elem_of_cons in Hin as [Hin|Hin]; [discriminate Hin|]).
  by apply elem_of_nil in Hin.
Defined.

(** ** Validation of the rephrase body *)

(** C2 (the code at the test's input).  The body with the empty text passes
    validation; the handler runs on it, so the answer is never 422, and with
    the credential configured the provider is called with the empty text:
    with a provider that answers, the request is answered 200. *)
Theorem empty_text_reaches_provider :
  validate_RephraseRequest empty_text_payload
    = Some {| RephraseRequest.text := [];
              RephraseRequest.tone := py "conversational" |}
  ∧ (∀ e w, status (serve (POST_rephrase empty_text_payload) e w).1 ≠ 422)
  ∧ status (serve (POST_rephrase empty_text_payload) sample_env startup).1 = 200
  ∧ snd <$> llm_calls (serve (POST_rephrase empty_text_payload)
                         sample_env startup).2 = [[]].
Proof.
  assert (Hvalid : validate_RephraseRequest empty_text_payload
    = Some {| RephraseRequest.text := [];
              RephraseRequest.tone := py "conversational" |})
    by reflexivity.
  split; [exact Hvalid|]. split; [|split; reflexivity].
  intros e w. unfold serve. rewrite Hvalid. unfold route.
  rewrite rephrase_text_run.
  destruct (falsy (EMERGENT_LLM_KEY e)); simpl; [discriminate|].
  destruct (llm_reply e _ _); simpl; discriminate.
Qed.

(** ** Failures of the rephrase route *)

(** C6 (the code at a failing provider call).  When the provider call raises,
    the rephrase route answers 500 and the detail sent to the caller is
    "Failed to rephrase text: " followed by the text of the exception, which
    is also logged. *)
Theorem rephrase_failure_exposes_cause (cause : str)
    (request : RephraseRequest.t) (w : World) :
  route RephraseJson (rephrase_text request) (provider_failing cause) w
  = ({| status := 500;
        body := DetailJson (py "Failed to rephrase text: " ++ cause) |},
     with_log
       (with_call w (chat_for request (provider_failing cause),
                     RephraseRequest.text request))
       (py "Error rephrasing text: " ++ cause)).
Proof. unfold route. rewrite rephrase_text_run. reflexivity. Qed.

(** ** The history routes, step by step *)

Lemma store_call_fault {A} (k : World → result A * World) (e : Env) (w : World)
    (cause : str) :
  store_fault e = Some cause → store_call k e w = (Raise (Error cause), w).
Proof. intros Hfault. unfold store_call. by rewrite Hfault. Qed.

Lemma store_call_up {A} (k : World → result A * World) (e : Env) (w : World) :
  store_fault e = None → store_call k e w = k w.
Proof. intros Hup. unfold store_call. by rewrite Hup. Qed.

Lemma model_dump_timestamp (h : HistoryItem.t) :
  model_dump h !! py "timestamp" = Some (VDatetime (HistoryItem.timestamp h)).
Proof. reflexivity. Qed.

Lemma save_history_run (input : HistoryCreate.t) (e : Env) (w : World) :
  save_history input e w =
    match store_fault e with
    | Some cause =>
        (Raise (HTTPException 500 (py "Failed to save history")),
         with_log w (py "Error saving history: " ++ cause))
    | None =>
        (Ok (new_item input e),
         with_history w
           (history w ++ [stored (fresh_object_id e) (new_item input e)]))
    end.
Proof.
  unfold save_history, try_except, mbind, M_bind, uuid4, datetime_now_utc.
  fold (new_item input e).
  unfold dict_getitem. rewrite model_dump_timestamp.
  unfold insert_one, store_call.
  destruct (store_fault e); reflexivity.
Qed.

Lemma delete_history_item_run (history_id : str) (e : Env) (w : World) :
  delete_history_item history_id e w =
    match store_fault e with
    | Some cause =>
        (Raise (HTTPException 500 (py "Failed to delete history")),
         with_log w (py "Error deleting history: " ++ cause))
    | None =>
        match remove_first (py "id") (VStr history_id) (history w) with
        | Some l => (Ok deleted_message, with_history w l)
        | None =>
            (Raise (HTTPException 404 (py "History item not found")), w)
        end
    end.
Proof.
  unfold delete_history_item, try_except, mbind, M_bind, delete_one,
    store_call.
  destruct (store_fault e); [reflexivity|].
  destruct (remove_first _ _ _); reflexivity.
Qed.

Lemma get_history_run (e : Env) (w : World) :
  get_history e w =
    match store_fault e with
    | Some cause =>
        (Raise (HTTPException 500 (py "Failed to fetch history")),
         with_log w (py "Error fetching history: " ++ cause))
    | None =>
        match for_each parse_timestamp
                (delete (py "_id")
                   <$> take 50 (merge_sort (desc_by (py "timestamp"))
                                           (history w))) e w with
        | (Ok items, w') => (Ok items, w')
        | (Raise x, w') =>
            (Raise (HTTPException 500 (py "Failed to fetch history")),
             with_log w' (py "Error fetching history: " ++ exn_str x))
        end
    end.
Proof.
  unfold get_history, try_except, mbind, M_bind, find_sort_to_list,
    store_call.
  destruct (store_fault e); [reflexivity|].
  destruct (for_each _ _ _ _) as [[items|x] w']; reflexivity.
Qed.

(** The history routes, on a store error, log the cause and answer 500 with
    a fixed detail. *)
Lemma history_failures_are_generic (e : Env) (w : World) (cause : str) :
  store_fault e = Some cause →
  (∀ input,
     route HistoryItemJson (save_history input) e w
     = ({| status := 500; body := DetailJson (py "Failed to save history") |},
        with_log w (py "Error saving history: " ++ cause)))
  ∧ route HistoryListJson get_history e w
    = ({| status := 500; body := DetailJson (py "Failed to fetch history") |},
       with_log w (py "Error fetching history: " ++ cause))
  ∧ (∀ history_id,
       route MessageJson (delete_history_item history_id) e w
       = ({| status := 500;
             body := DetailJson (py "Failed to delete history") |},
          with_log w (py "Error deleting history: " ++ cause))).
Proof.
  intros Hfault. unfold route. repeat split; intros.
  - by rewrite save_history_run, Hfault.
  - by rewrite get_history_run, Hfault.
  - by rewrite delete_history_item_run, Hfault.
Qed.

(** ** Timestamps written and read back *)

Lemma pow10_succ (w : nat) : 10 ^ Z.of_nat (S w) = 10 * 10 ^ Z.of_nat w.
Proof. rewrite Nat2Z.inj_succ, Z.pow_succ_r by lia. reflexivity. Qed.

Lemma pow10_pos (w : nat) : 0 < 10 ^ Z.of_nat w.
Proof. apply Z.pow_pos_nonneg; lia. Qed.

(** The leading digit and the remaining digits of a number of [S w]
    digits. *)
Lemma leading_digit (w : nat) (n : Z) :
  0 ≤ n < 10 ^ Z.of_nat (S w) →
  0 ≤ n / 10 ^ Z.of_nat w < 10
  ∧ 0 ≤ n mod 10 ^ Z.of_nat w < 10 ^ Z.of_nat w
  ∧ n = 10 ^ Z.of_nat w * (n / 10 ^ Z.of_nat w) + n mod 10 ^ Z.of_nat w.
Proof.
  rewrite pow10_succ. intros Hn.
  pose proof (pow10_pos w) as Hpos.
  pose proof (Z.div_mod n (10 ^ Z.of_nat w) ltac:(lia)) as Hdm.
  pose proof (Z.mod_pos_bound n (10 ^ Z.of_nat w) Hpos) as Hmod.
  split; [|split; [exact Hmod|exact Hdm]].
  split.
  - apply Z.div_pos; lia.
  - apply Z.div_lt_upper_bound; lia.
Qed.

Lemma read_digits_zfill (w : nat) (n acc : Z) (rest : str) :
  0 ≤ n < 10 ^ Z.of_nat w →
  read_digits w acc (zfill w n ++ rest) = Some (acc * 10 ^ Z.of_nat w + n, rest).
Proof.
  revert n acc. induction w as [|w IH]; intros n acc Hn.
  - simpl in *. f_equal. f_equal. lia.
  - destruct (leading_digit w n Hn) as (Hlead & Hmod & Hsplit).
    cbn [zfill read_digits app]. unfold digit.
    replace ((48 <=? Z.to_N (48 + n / 10 ^ Z.of_nat w))
             && (Z.to_N (48 + n / 10 ^ Z.of_nat w) <=? 57))%N
      with true by lia.
    rewrite IH by exact Hmod.
    rewrite pow10_succ. f_equal. f_equal. nia.
Qed.

Lemma days_in_month_le (y m : Z) : days_in_month y m ≤ 31.
Proof.
  unfold days_in_month.
  repeat match goal with |- context [if ?b then _ else _] => destruct b end;
    lia.
Qed.

Lemma valid_datetime_ranges (d : datetime) :
  valid_datetime d = true →
  1 ≤ year d ≤ 9999 ∧ 1 ≤ month d ≤ 12 ∧ 1 ≤ day d ≤ 31
  ∧ 0 ≤ hour d < 24 ∧ 0 ≤ minute d < 60 ∧ 0 ≤ second d < 60
  ∧ 0 ≤ microsecond d < 1000000
  ∧ ∀ off, utcoffset d = Some off → -1440 < off < 1440.
Proof.
  unfold valid_datetime. intros Hvalid.
  pose proof (days_in_month_le (year d) (month d)) as Hdim.
  repeat (apply andb_prop in Hvalid as [Hvalid ?]).
  assert (∀ tz, utcoffset d = Some tz → -1440 < tz < 1440) as Hoffset.
  { intros tz Htz. rewrite Htz in *. lia. }
  repeat (split; [lia|]). exact Hoffset.
Qed.

Lemma read_zfill (w : nat) (n : Z) (rest : str) :
  0 ≤ n < 10 ^ Z.of_nat w →
  read_digits w 0 (zfill w n ++ rest) = Some (n, rest).
Proof. intros Hn. by rewrite read_digits_zfill. Qed.

Lemma zfill_S (w : nat) (n : Z) :
  zfill (S w) n
  = digit (n / 10 ^ Z.of_nat w) :: zfill w (n mod 10 ^ Z.of_nat w).
Proof. reflexivity. Qed.

(** Source literals as code points. *)
Ltac py_literals :=
  repeat match goal with
    | |- context [py ?s] =>
        let v := eval vm_compute in (py s) in change (py s) with v
    end.

#[local] Opaque zfill read_digits.

Lemma read_offset_isoformat (tz : option Z) :
  (∀ off, tz = Some off → -1440 < off < 1440) →
  read_offset (isoformat_offset tz) = Some tz.
Proof.
  intros Hrange. destruct tz as [off|]; [|reflexivity].
  specialize (Hrange off eq_refl).
  assert (Hh : 0 ≤ Z.abs off / 60 < 10 ^ Z.of_nat 2).
  { split; [apply Z.div_pos; lia|apply Z.div_lt_upper_bound; simpl; lia]. }
  assert (Hm : 0 ≤ Z.abs off mod 60 < 10 ^ Z.of_nat 2).
  { pose proof (Z.mod_pos_bound (Z.abs off) 60 ltac:(lia)). simpl. lia. }
  pose proof (Z.div_mod (Z.abs off) 60 ltac:(lia)) as Hdm.
  unfold isoformat_offset, read_offset.
  destruct (off <? 0) eqn:Hneg; py_literals; simpl;
    rewrite read_zfill by exact Hh; simpl;
    rewrite <- (app_nil_r (zfill 2 (Z.abs off mod 60)));
    rewrite read_zfill by exact Hm; simpl;
    f_equal; f_equal; lia.
Qed.

Lemma read_fraction_isoformat (us : Z) (rest : str) :
  0 ≤ us < 1000000 →
  (∀ c rest', rest = c :: rest' → c ≠ 46%N) →
  read_fraction (isoformat_fraction us ++ rest) = Some (us, rest).
Proof.
  intros Hus Hrest. unfold isoformat_fraction.
  destruct (us =? 0) eqn:Hzero.
  - assert (us = 0) as -> by lia. simpl.
    destruct rest as [|c rest']; [reflexivity|].
    specialize (Hrest c rest' eq_refl). unfold read_fraction.
    destruct (N.eqb_spec c 46); [contradiction|reflexivity].
  - py_literals. simpl.
    by rewrite read_zfill by (simpl; lia).
Qed.

Lemma isoformat_offset_head (tz : option Z) (c : N) (rest : str) :
  isoformat_offset tz = c :: rest → c ≠ 46%N.
Proof.
  destruct tz as [off|]; [|discriminate].
  unfold isoformat_offset. destruct (off <? 0); py_literals; simpl;
    intros [= <- _]; discriminate.
Qed.

(** Reading back what [isoformat] wrote gives the datetime written. *)
Lemma fromisoformat_isoformat (d : datetime) :
  valid_datetime d = true → fromisoformat (isoformat d) = Some d.
Proof.
  intros Hvalid.
  destruct (valid_datetime_ranges d Hvalid)
    as (Hy & Hmo & Hd & Hh & Hmi & Hs & Hus & Hoff).
  unfold fromisoformat, isoformat. py_literals.
  rewrite read_zfill by (simpl; lia). simpl.
  rewrite read_zfill by (simpl; lia). simpl.
  rewrite read_zfill by (simpl; lia). simpl.
  rewrite read_zfill by (simpl; lia). simpl.
  rewrite read_zfill by (simpl; lia). simpl.
  rewrite read_zfill by (simpl; lia). simpl.
  rewrite read_fraction_isoformat
    by (try exact Hus; intros c rest'; apply isoformat_offset_head).
  simpl. rewrite read_offset_isoformat by exact Hoff. simpl.
  destruct d; simpl in *. by rewrite Hvalid.
Qed.

(** ** The order of timestamps and of their strings *)

Lemma lexico_cons (x y : N) (l k : str) :
  lexico (x :: l) (y :: k) ↔ (x < y)%N ∨ x = y ∧ lexico l k.
Proof. reflexivity. Qed.

Lemma lexico_cons_same (c : N) (l k : str) :
  lexico (c :: l) (c :: k) ↔ lexico l k.
Proof. rewrite lexico_cons. intuition lia. Qed.

Lemma lexico_irrefl (l : str) : ¬ lexico l l.
Proof. apply (irreflexivity lexico). Qed.

(** Numbers written with the same number of digits compare as their digit
    strings do, whatever follows them. *)
Lemma zfill_lexico (w : nat) (a b : Z) (ra rb : str) :
  0 ≤ a < 10 ^ Z.of_nat w → 0 ≤ b < 10 ^ Z.of_nat w →
  lexico (zfill w a ++ ra) (zfill w b ++ rb) ↔ a < b ∨ a = b ∧ lexico ra rb.
Proof.
  revert a b. induction w as [|w IH]; intros a b Ha Hb.
  - simpl in Ha, Hb. assert (a = 0) as -> by lia. assert (b = 0) as -> by lia.
    change (zfill 0 0) with (@nil N). simpl. intuition lia.
  - destruct (leading_digit w a Ha) as (Hqa & Hra & Hsa).
    destruct (leading_digit w b Hb) as (Hqb & Hrb & Hsb).
    rewrite !zfill_S. simpl app. rewrite lexico_cons, (IH _ _ Hra Hrb).
    unfold digit.
    pose proof (pow10_pos w) as Hpos.
    split.
    + intros [Hlt|[Heq [Hlt|[Heq' Hrest]]]].
      * left. nia.
      * left. assert (a / 10 ^ Z.of_nat w = b / 10 ^ Z.of_nat w) by lia. nia.
      * right. split; [|exact Hrest].
        assert (a / 10 ^ Z.of_nat w = b / 10 ^ Z.of_nat w) by lia. nia.
    + intros [Hlt|[-> Hrest]].
      * destruct (Z.lt_trichotomy (a / 10 ^ Z.of_nat w) (b / 10 ^ Z.of_nat w))
          as [Hq|[Hq|Hq]].
        -- left. lia.
        -- right. split; [lia|]. left. nia.
        -- exfalso. nia.
      * right. split; [reflexivity|]. right. split; [reflexivity|exact Hrest].
Qed.

Lemma lexico_cons_Z (x y : Z) (l k : list Z) :
  lexico (x :: l) (y :: k) ↔ x < y ∨ x = y ∧ lexico l k.
Proof. reflexivity. Qed.

Lemma fraction_lexico (ua ub : Z) (c : N) (tail : str) :
  0 ≤ ua < 1000000 → 0 ≤ ub < 1000000 → (c < 46)%N →
  lexico (isoformat_fraction ua ++ c :: tail)
         (isoformat_fraction ub ++ c :: tail) ↔ ua < ub.
Proof.
  intros Ha Hb Hc. unfold isoformat_fraction.
  destruct (ua =? 0) eqn:Hza, (ub =? 0) eqn:Hzb; py_literals; simpl app.
  - pose proof (lexico_irrefl (c :: tail)). intuition lia.
  - rewrite lexico_cons. intuition lia.
  - rewrite lexico_cons. intuition lia.
  - rewrite lexico_cons_same, zfill_lexico by (simpl; lia).
    pose proof (lexico_irrefl (c :: tail)). intuition lia.
Qed.

(** The isoformat strings of two UTC datetimes compare, code point by code
    point, as the datetimes do. *)
Lemma isoformat_lexico (a b : datetime) :
  valid_utc a → valid_utc b →
  lexico (isoformat a) (isoformat b) ↔ datetime_lt a b.
Proof.
  intros [Hva Hutca] [Hvb Hutcb].
  destruct (valid_datetime_ranges a Hva) as (? & ? & ? & ? & ? & ? & ? & _).
  destruct (valid_datetime_ranges b Hvb) as (? & ? & ? & ? & ? & ? & ? & _).
  unfold datetime_lt, datetime_fields, isoformat.
  rewrite Hutca, Hutcb.
  assert (∃ tail, isoformat_offset (Some 0) = 43%N :: tail) as [tail ->]
    by (eexists; unfold isoformat_offset; py_literals; reflexivity).
  py_literals.
  rewrite zfill_lexico by (simpl; lia). simpl app. rewrite lexico_cons_same.
  rewrite zfill_lexico by (simpl; lia). simpl app. rewrite lexico_cons_same.
  rewrite zfill_lexico by (simpl; lia). simpl app. rewrite lexico_cons_same.
  rewrite zfill_lexico by (simpl; lia). simpl app. rewrite lexico_cons_same.
  rewrite zfill_lexico by (simpl; lia). simpl app. rewrite lexico_cons_same.
  rewrite zfill_lexico by (simpl; lia).
  rewrite fraction_lexico by lia.
  rewrite !lexico_cons_Z.
  assert (¬ lexico (@nil Z) []) by (apply (irreflexivity lexico)).
  tauto.
Qed.

Lemma isoformat_inj (a b : datetime) :
  valid_datetime a = true → valid_datetime b = true →
  isoformat a = isoformat b → a = b.
Proof.
  intros Ha Hb Heq.
  apply fromisoformat_isoformat in Ha, Hb. rewrite Heq in Ha. congruence.
Qed.

#[local] Transparent zfill read_digits.

(** ** Sorting by a field, newest first *)

#[global] Instance desc_by_total (field : str) : Total (desc_by field).
Proof.
  intros a b. unfold desc_by.
  destruct (trichotomy lexico (bson_key (a !! field)) (bson_key (b !! field)))
    as [Hlt|[Heq|Hgt]].
  - right. intros Hgt. by apply (irreflexivity lexico (bson_key (a !! field)));
      trans (bson_key (b !! field)).
  - left. rewrite Heq. apply (irreflexivity lexico).
  - left. intros Hlt. by apply (irreflexivity lexico (bson_key (a !! field)));
      trans (bson_key (b !! field)).
Qed.

#[global] Instance desc_by_trans (field : str) : Transitive (desc_by field).
Proof.
  intros a b c. unfold desc_by. intros Hab Hbc Hac.
  destruct (trichotomy lexico (bson_key (a !! field)) (bson_key (b !! field)))
    as [Hlt|[Heq|Hgt]].
  - contradiction.
  - apply Hbc. by rewrite <- Heq.
  - apply Hbc. by trans (bson_key (a !! field)).
Qed.

Lemma sorted_history_perm (field : str) (l : list document) :
  merge_sort (desc_by field) l ≡ₚ l.
Proof. apply merge_sort_Permutation. Qed.

Lemma sorted_history_sorted (field : str) (l : list document) :
  StronglySorted (desc_by field) (merge_sort (desc_by field) l).
Proof. apply StronglySorted_merge_sort; apply _. Qed.

(** Two documents holding string timestamps sort by those strings. *)
Lemma desc_by_strings (field : str) (a b : document) (sa sb : str) :
  a !! field = Some (VStr sa) → b !! field = Some (VStr sb) →
  desc_by field a b ↔ ¬ lexico sa sb.
Proof.
  intros Ha Hb. unfold desc_by. rewrite Ha, Hb. simpl.
  unfold lexico at 1, prod_lexico. simpl.
  unfold lexico at 1, nat_lexico.
  unfold lexico at 2, prod_lexico. simpl.
  assert (¬ lexico (@nil Z) []) by (apply (irreflexivity lexico)).
  split.
  - intros Hn Hlt. apply Hn. right. split; [reflexivity|]. by left.
  - intros Hn [Hlt|[_ [Hlt|[_ Hlt]]]]; [lia|contradiction..].
Qed.

(** ** Documents written by the service *)

Lemma stored_timestamp (oid : N) (h : HistoryItem.t) :
  stored oid h !! py "timestamp"
  = Some (VStr (isoformat (HistoryItem.timestamp h))).
Proof. reflexivity. Qed.

Lemma stored_id (oid : N) (h : HistoryItem.t) :
  stored oid h !! py "id" = Some (VStr (HistoryItem.id h)).
Proof. reflexivity. Qed.

Lemma projected_stored_timestamp (oid : N) (h : HistoryItem.t) :
  delete (py "_id") (stored oid h) !! py "timestamp"
  = Some (VStr (isoformat (HistoryItem.timestamp h))).
Proof. reflexivity. Qed.

Lemma listed_stored (oid : N) (h : HistoryItem.t) :
  <[py "timestamp" := VDatetime (HistoryItem.timestamp h)]>
    (delete (py "_id") (stored oid h))
  = model_dump h.
Proof. reflexivity. Qed.

Lemma model_dump_dom (h : HistoryItem.t) :
  dom (model_dump h)
  = {[ py "id"; py "original_text"; py "rephrased_text"; py "tone";
       py "timestamp" ]}.
Proof. reflexivity. Qed.

Lemma model_dump_inj (h1 h2 : HistoryItem.t) :
  model_dump h1 = model_dump h2 → h1 = h2.
Proof.
  intros Heq.
  assert (∀ k, model_dump h1 !! k = model_dump h2 !! k) as Hk
    by (intros k; by rewrite Heq).
  pose proof (Hk (py "id")) as H1.
  pose proof (Hk (py "original_text")) as H2.
  pose proof (Hk (py "rephrased_text")) as H3.
  pose proof (Hk (py "tone")) as H4.
  pose proof (Hk (py "timestamp")) as H5.
  destruct h1, h2.
  change (Some (VStr id) = Some (VStr id0)) in H1.
  change (Some (VStr original_text) = Some (VStr original_text0)) in H2.
  change (Some (VStr rephrased_text) = Some (VStr rephrased_text0)) in H3.
  change (Some (VStr tone) = Some (VStr tone0)) in H4.
  change (Some (VDatetime timestamp) = Some (VDatetime timestamp0)) in H5.
  congruence.
Qed.

Lemma parse_timestamp_stored (oid : N) (h : HistoryItem.t) (e : Env) (w : World) :
  valid_utc (HistoryItem.timestamp h) →
  parse_timestamp (delete (py "_id") (stored oid h)) e w
  = (Ok (model_dump h), w).
Proof.
  intros [Hvalid _].
  unfold parse_timestamp, mbind, M_bind, dict_getitem.
  rewrite projected_stored_timestamp. simpl.
  rewrite (fromisoformat_isoformat _ Hvalid). simpl.
  by rewrite listed_stored.
Qed.

(** The loop of [get_history] changes nothing but the items. *)
Lemma parse_timestamp_world (item : document) (e : Env) (w : World) :
  (parse_timestamp item e w).2 = w.
Proof.
  unfold parse_timestamp, mbind, M_bind, dict_getitem.
  destruct (item !! py "timestamp") as [[s|o|d]|]; simpl; try reflexivity.
  destruct (fromisoformat s); reflexivity.
Qed.

Lemma for_each_parse_world (items : list document) (e : Env) (w : World) :
  (for_each parse_timestamp items e w).2 = w.
Proof.
  induction items as [|item items IH]; [reflexivity|].
  simpl. unfold mbind, M_bind.
  pose proof (parse_timestamp_world item e w) as Hw.
  destruct (parse_timestamp item e w) as [[item'|x] w1]; simpl in Hw; subst;
    [|reflexivity].
  destruct (for_each parse_timestamp items e w) as [[items'|x] w2];
    simpl in *; by subst.
Qed.

(** The items listed for documents the service wrote are the records they
    were written for. *)
Lemma for_each_parse_written (l : list document) (e : Env) (w : World) :
  Forall written_by_service l →
  ∃ hs,
    for_each parse_timestamp (delete (py "_id") <$> l) e w
      = (Ok (model_dump <$> hs), w)
    ∧ Forall2 (λ d h, valid_utc (HistoryItem.timestamp h)
                      ∧ ∃ oid, d = stored oid h) l hs.
Proof.
  induction 1 as [|d l (oid & h & Hvalid & ->) _ (hs & Hrun & Hrel)].
  - exists []. split; [reflexivity|constructor].
  - exists (h :: hs). split; [|constructor; eauto].
    cbn [fmap list_fmap for_each]. unfold mbind at 1, M_bind.
    rewrite (parse_timestamp_stored oid h e w Hvalid).
    unfold mbind, M_bind. rewrite Hrun. reflexivity.
Qed.

Lemma remove_first_Some (field : str) (v : value) (l l' : list document) :
  remove_first field v l = Some l' →
  ∃ l1 d l2,
    l = l1 ++ d :: l2 ∧ l' = l1 ++ l2 ∧ d !! field = Some v
    ∧ Forall (λ x, x !! field ≠ Some v) l1.
Proof.
  revert l'. induction l as [|d l IH]; intros l'; simpl; [discriminate|].
  case_decide as Hd.
  - intros [= <-]. exists [], d, l. auto.
  - destruct (remove_first field v l) as [l0|]; [|discriminate].
    intros [= <-]. destruct (IH l0 eq_refl) as (l1 & d' & l2 & -> & -> & ? & ?).
    exists (d :: l1), d', l2. auto.
Qed.

Lemma remove_first_None (field : str) (v : value) (l : list document) :
  remove_first field v l = None ↔ Forall (λ x, x !! field ≠ Some v) l.
Proof.
  induction l as [|d l IH]; simpl.
  - split; [constructor|reflexivity].
  - case_decide as Hd.
    + split; [discriminate|]. intros Hall. by inversion Hall.
    + destruct (remove_first field v l).
      * split; [discriminate|]. intros Hall. inversion Hall; subst.
        exfalso. by assert (Some l0 = None) by (by apply IH).
      * split; [|reflexivity]. intros _. constructor; [exact Hd|by apply IH].
Qed.

Lemma store_inv_remove (l1 l2 : list document) (d : document) :
  store_inv (l1 ++ d :: l2) → store_inv (l1 ++ l2).
Proof.
  intros [Hall Hnodup]. split.
  - apply Forall_app in Hall as [? Htl]. apply Forall_app.
    split; [done|by inversion Htl].
  - rewrite fmap_app in *. simpl in Hnodup.
    apply NoDup_app in Hnodup as (? & Hdisj & Htl). apply NoDup_app.
    split; [done|]. split; [|by inversion Htl].
    intros x Hx Hx'. apply (Hdisj x Hx). by right.
Qed.

Lemma store_inv_insert (l : list document) (oid : N) (h : HistoryItem.t) :
  store_inv l → valid_utc (HistoryItem.timestamp h) →
  unused_id (HistoryItem.id h) l →
  store_inv (l ++ [stored oid h]).
Proof.
  intros [Hall Hnodup] Hvalid Hfresh. split.
  - apply Forall_app. split; [done|]. constructor; [|constructor].
    by exists oid, h.
  - rewrite fmap_app. apply NoDup_app. split; [done|]. split.
    + intros x Hx Hx'. apply list_elem_of_singleton in Hx'. subst x.
      apply list_elem_of_fmap in Hx as (d & Hd & Hin).
      unfold unused_id in Hfresh. rewrite Forall_forall in Hfresh.
      apply (Hfresh d Hin). by rewrite <- Hd.
    + apply NoDup_singleton.
Qed.

(** Every state the service reaches satisfies the invariant. *)
Lemma reachable_store_inv (w : World) : reachable w → store_inv (history w).
Proof.
  induction 1 as [|r e w Hreach IH [Hclock Hfresh]].
  - split; constructor.
  - destruct r as [|payload|input| |history_id]; simpl.
    + exact IH.
    + destruct (validate_RephraseRequest payload) as [req|]; [|exact IH].
      unfold route.
      destruct (rephrase_text_frame req e w) as [Hhist _].
      destruct (rephrase_text req e w); simpl in *. by rewrite Hhist.
    + unfold route. rewrite save_history_run.
      destruct (store_fault e); simpl; [exact IH|].
      by apply store_inv_insert.
    + unfold route. rewrite get_history_run.
      destruct (store_fault e); simpl; [exact IH|].
      pose proof (for_each_parse_world
        (delete (py "_id")
           <$> take 50 (merge_sort (desc_by (py "timestamp")) (history w)))
        e w) as Hw.
      destruct (for_each _ _ _ _) as [[items|x] w']; simpl in *; by subst.
    + unfold route. rewrite delete_history_item_run.
      destruct (store_fault e); simpl; [exact IH|].
      destruct (remove_first _ _ _) as [l|] eqn:Hrm; simpl; [|exact IH].
      apply remove_first_Some in Hrm as (l1 & d & l2 & Heq & -> & _ & _).
      rewrite Heq in IH. by eapply store_inv_remove.
Qed.

(** ** Deleting a history item *)

Lemma delete_absent (history_id : str) (e : Env) (w : World) :
  store_fault e = None →
  Forall (λ d, d !! py "id" ≠ Some (VStr history_id)) (history w) →
  serve (DELETE_history history_id) e w = (not_found, w).
Proof.
  intros Hup Habsent. apply remove_first_None in Habsent.
  simpl. unfold route. by rewrite delete_history_item_run, Hup, Habsent.
Qed.

Lemma delete_present (history_id : str) (e : Env) (w : World) :
  store_fault e = None →
  has_id history_id (history w) →
  ∃ l1 d l2,
    history w = l1 ++ d :: l2
    ∧ d !! py "id" = Some (VStr history_id)
    ∧ Forall (λ x, x !! py "id" ≠ Some (VStr history_id)) l1
    ∧ serve (DELETE_history history_id) e w
      = (deleted, with_history w (l1 ++ l2)).
Proof.
  intros Hup Hpresent.
  destruct (remove_first (py "id") (VStr history_id) (history w)) as [l'|]
    eqn:Hrm.
  - destruct (remove_first_Some _ _ _ _ Hrm) as (l1 & d & l2 & Heq & -> & Hd & Hl1).
    exists l1, d, l2. repeat (split; [done|]).
    simpl. unfold route. by rewrite delete_history_item_run, Hup, Hrm.
  - apply remove_first_None in Hrm. unfold has_id in Hpresent.
    rewrite Exists_exists in Hpresent. destruct Hpresent as (d & Hin & Hd).
    rewrite Forall_forall in Hrm. by destruct (Hrm d Hin).
Qed.

(** C5.  In a state the service can reach, with the store answering:
    deleting an id some record carries removes one record with that id and is
    answered 200; deleting the same id again right after is answered 404; and
    deleting an id no record carries is answered 404, which is not the 500 of
    a generic failure, and changes nothing. *)
Theorem delete_history_item_outcomes (history_id : str) (e e' : Env)
    (w : World) :
  reachable w → store_fault e = None → store_fault e' = None →
  (has_id history_id (history w) →
     ∃ l1 d l2,
       history w = l1 ++ d :: l2
       ∧ d !! py "id" = Some (VStr history_id)
       ∧ serve (DELETE_history history_id) e w
         = (deleted, with_history w (l1 ++ l2))
       ∧ serve (DELETE_history history_id) e' (with_history w (l1 ++ l2))
         = (not_found, with_history w (l1 ++ l2)))
  ∧ (¬ has_id history_id (history w) →
     serve (DELETE_history history_id) e w = (not_found, w))
  ∧ status not_found = 404 ∧ status deleted = 200.
Proof.
  intros Hreach Hup Hup'. split; [|split; [|done]].
  - intros Hpresent.
    destruct (delete_present history_id e w Hup Hpresent)
      as (l1 & d & l2 & Heq & Hd & Hl1 & Hrun).
    exists l1, d, l2. repeat (split; [done|]).
    apply delete_absent; [done|]. simpl.
    apply reachable_store_inv in Hreach as [_ Hnodup].
    rewrite Heq, fmap_app in Hnodup. simpl in Hnodup.
    apply NoDup_app in Hnodup as (_ & _ & Htl).
    apply NoDup_cons in Htl as [Hnotin _].
    apply Forall_app. split; [exact Hl1|].
    apply Forall_forall. intros x Hx Hxid. apply Hnotin.
    rewrite Hd, <- Hxid. apply list_elem_of_fmap. by exists x.
  - intros Habsent. apply delete_absent; [done|].
    apply Forall_forall. intros d Hin Hd. apply Habsent.
    unfold has_id. rewrite Exists_exists. by exists d.
Qed.

Ltac decide_closed := apply (bool_decide_unpack _); vm_compute; reflexivity.

Lemma later_env_sound : env_sound later_env startup.
Proof. split; [split; reflexivity|constructor]. Qed.

Lemma sample_env_sound : env_sound sample_env world_one.
Proof.
  split; [split; reflexivity|].
  unfold unused_id. decide_closed.
Qed.

Lemma world_one_reachable : reachable world_one.
Proof. apply reachable_serve; [constructor|exact later_env_sound]. Qed.

Lemma world_two_reachable : reachable world_two.
Proof.
  apply reachable_serve; [exact world_one_reachable|exact sample_env_sound].
Qed.

Lemma delete_history_item_outcomes_witness :
  (∃ l1 d l2,
     history world_one = l1 ++ d :: l2
     ∧ d !! py "id" = Some (VStr (fresh_uuid later_env))
     ∧ serve (DELETE_history (fresh_uuid later_env)) sample_env world_one
       = (deleted, with_history world_one (l1 ++ l2))
     ∧ serve (DELETE_history (fresh_uuid later_env)) sample_env
         (with_history world_one (l1 ++ l2))
       = (not_found, with_history world_one (l1 ++ l2)))
  ∧ serve (DELETE_history (py "non-existent-id-12345")) sample_env world_one
    = (not_found, world_one).
Proof.
  split.
  - apply (delete_history_item_outcomes (fresh_uuid later_env) sample_env
             sample_env world_one world_one_reachable eq_refl eq_refl).
    unfold has_id. decide_closed.
  - apply (delete_history_item_outcomes (py "non-existent-id-12345")
             sample_env sample_env world_one world_one_reachable eq_refl
             eq_refl).
    unfold has_id. decide_closed.
Defined.

(** ** Listing the history *)

Lemma StronglySorted_Forall2 {A B} (R : relation A) (S : relation B)
    (P : A → B → Prop) (l : list A) (k : list B) :
  (∀ a b x y, P a x → P b y → R a b → S x y) →
  Forall2 P l k → StronglySorted R l → StronglySorted S k.
Proof.
  intros HRS. induction 1 as [|a x l k Hax Hlk IH]; intros Hsorted.
  - constructor.
  - apply StronglySorted_inv in Hsorted as [Hl Ha].
    constructor; [by apply IH|].
    clear IH Hl. induction Hlk as [|b y l k Hby Hlk IH]; [constructor|].
    inversion Ha; subst. constructor; eauto.
Qed.

Lemma desc_by_stored (o1 o2 : N) (h1 h2 : HistoryItem.t) :
  valid_utc (HistoryItem.timestamp h1) → valid_utc (HistoryItem.timestamp h2) →
  desc_by (py "timestamp") (stored o1 h1) (stored o2 h2)
  ↔ datetime_le (HistoryItem.timestamp h2) (HistoryItem.timestamp h1).
Proof.
  intros Hv1 Hv2.
  rewrite (desc_by_strings _ _ _ _ _ (stored_timestamp o1 h1)
             (stored_timestamp o2 h2)).
  unfold datetime_le. by rewrite isoformat_lexico.
Qed.

(** What the list route returns on a collection that satisfies the
    invariant. *)
Lemma get_history_listing (e : Env) (w : World) :
  store_inv (history w) → store_fault e = None →
  ∃ hs,
    get_history e w = (Ok (model_dump <$> hs), w)
    ∧ Forall2 (λ d h, valid_utc (HistoryItem.timestamp h)
                      ∧ ∃ oid, d = stored oid h)
        (take 50 (merge_sort (desc_by (py "timestamp")) (history w))) hs
    ∧ (length hs ≤ 50)%nat
    ∧ newest_first hs.
Proof.
  intros [Hwritten _] Hup.
  set (sorted := merge_sort (desc_by (py "timestamp")) (history w)).
  assert (Forall written_by_service (take 50 sorted)) as Htaken.
  { apply Forall_take. unfold sorted.
    by rewrite (sorted_history_perm (py "timestamp") (history w)). }
  destruct (for_each_parse_written _ e w Htaken) as (hs & Hrun & Hrel).
  exists hs. rewrite get_history_run, Hup. fold sorted. rewrite Hrun.
  split; [reflexivity|]. split; [exact Hrel|]. split.
  - rewrite <- (Forall2_length _ _ _ Hrel), length_take. lia.
  - eapply StronglySorted_Forall2; [|exact Hrel|].
    + intros a b x y [Hvx [ox ->]] [Hvy [oy ->]] Hab.
      by apply desc_by_stored in Hab.
    + pose proof (sorted_history_sorted (py "timestamp") (history w)) as Hs.
      fold sorted in Hs. rewrite <- (take_drop 50 sorted) in Hs.
      by apply StronglySorted_app_1_l in Hs.
Qed.

(** C4.  In a state the service can reach, with the store answering, the
    list route is answered 200 with at most 50 records, the timestamps of
    which are UTC datetimes that never increase from one record to the next
    (newest first); each record is a dict with exactly the keys id,
    original_text, rephrased_text, tone and timestamp, so the store's [_id]
    is not among them. *)
Theorem list_history_capped_newest_first (e : Env) (w : World) :
  reachable w → store_fault e = None →
  ∃ hs,
    serve GET_history e w
      = ({| status := 200; body := HistoryListJson (model_dump <$> hs) |}, w)
    ∧ (length (model_dump <$> hs) ≤ 50)%nat
    ∧ Forall (λ h, valid_utc (HistoryItem.timestamp h)) hs
    ∧ newest_first hs
    ∧ Forall (λ item, dom item = semantic_fields ∧ item !! py "_id" = None)
             (model_dump <$> hs).
Proof.
  intros Hreach Hup. apply reachable_store_inv in Hreach.
  destruct (get_history_listing e w Hreach Hup)
    as (hs & Hrun & Hrel & Hlen & Hsorted).
  exists hs. simpl. unfold route. rewrite Hrun. simpl.
  split; [reflexivity|]. split; [by rewrite length_fmap|].
  split.
  { apply Forall_forall. intros h Hh.
    apply list_elem_of_lookup in Hh as [i Hi].
    by destruct (Forall2_lookup_r _ _ _ _ _ Hrel Hi) as (_ & _ & ? & _). }
  split; [exact Hsorted|].
  apply Forall_fmap, Forall_forall. intros h _. split; reflexivity.
Qed.

Lemma list_history_capped_newest_first_witness :
  ∃ hs,
    serve GET_history sample_env world_two
      = ({| status := 200; body := HistoryListJson (model_dump <$> hs) |},
         world_two)
    ∧ (length (model_dump <$> hs) ≤ 50)%nat
    ∧ Forall (λ h, valid_utc (HistoryItem.timestamp h)) hs
    ∧ newest_first hs
    ∧ Forall (λ item, dom item = semantic_fields ∧ item !! py "_id" = None)
             (model_dump <$> hs).
Proof.
  exact (list_history_capped_newest_first sample_env world_two
           world_two_reachable eq_refl).
Defined.

(** ** Creating a record and listing right after *)

(** A document newer than all the others is the first of the sorted
    collection. *)
Lemma newest_sorts_first (l : list document) (oid : N) (h : HistoryItem.t) :
  valid_utc (HistoryItem.timestamp h) →
  Forall (older_than (HistoryItem.timestamp h)) l →
  ∃ tl, merge_sort (desc_by (py "timestamp")) (l ++ [stored oid h])
        = stored oid h :: tl.
Proof.
  intros Hvalid Holder.
  pose proof (sorted_history_perm (py "timestamp") (l ++ [stored oid h]))
    as Hperm.
  pose proof (sorted_history_sorted (py "timestamp") (l ++ [stored oid h]))
    as Hsorted.
  destruct (merge_sort _ _) as [|hd tl].
  { apply Permutation_length in Hperm. rewrite length_app in Hperm.
    simpl in Hperm. lia. }
  destruct (decide (hd = stored oid h)) as [->|Hne]; [by exists tl|].
  exfalso.
  assert (hd ∈ l) as Hhd.
  { assert (hd ∈ l ++ [stored oid h]) as Hin
      by (rewrite <- Hperm; by left).
    apply elem_of_app in Hin as [Hin|Hin]; [done|].
    by apply list_elem_of_singleton in Hin. }
  assert (stored oid h ∈ tl) as Hnew.
  { assert (stored oid h ∈ hd :: tl) as Hin
      by (rewrite Hperm; apply elem_of_app; right; by left).
    apply elem_of_cons in Hin as [Hin|Hin]; [congruence|done]. }
  apply StronglySorted_inv in Hsorted as [_ Hall].
  rewrite Forall_forall in Hall. specialize (Hall _ Hnew).
  rewrite Forall_forall in Holder.
  destruct (Holder _ Hhd) as (ts & Hts & Hlook & Hlt).
  rewrite (desc_by_strings _ _ _ _ _ Hlook (stored_timestamp oid h)) in Hall.
  apply Hall. by apply isoformat_lexico.
Qed.

Lemma older_than_iso_timestamped (now : datetime) (d : document) :
  older_than now d → iso_timestamped d.
Proof. intros (ts & ? & ? & _). by exists ts. Qed.

Lemma stored_iso_timestamped (oid : N) (h : HistoryItem.t) :
  valid_utc (HistoryItem.timestamp h) → iso_timestamped (stored oid h).
Proof. intros Hvalid. by exists (HistoryItem.timestamp h). Qed.

(** The loop of [get_history] goes through when every timestamp parses. *)
Lemma for_each_parse_returns (l : list document) (e : Env) (w : World) :
  Forall iso_timestamped l →
  ∃ items,
    for_each parse_timestamp (delete (py "_id") <$> l) e w = (Ok items, w).
Proof.
  induction 1 as [|d l (ts & [Hvalid _] & Hlook) _ (items & Hrun)].
  - by exists [].
  - eexists. cbn [fmap list_fmap for_each]. unfold mbind at 1, M_bind.
    unfold parse_timestamp at 1, mbind at 1, M_bind, dict_getitem.
    rewrite lookup_delete_ne
      by (intros Hkey; vm_compute in Hkey; discriminate Hkey).
    rewrite Hlook. simpl. rewrite (fromisoformat_isoformat ts Hvalid). simpl.
    unfold mbind, M_bind. rewrite Hrun. reflexivity.
Qed.

(** C7, as the code has it.  With the clock reading a UTC datetime and the
    store answering: when every record already stored carries a timestamp
    strictly earlier than the clock reading of the create, the create is
    answered 200 with the new record and a list served right after is
    answered 200 with that record as its first entry. *)
Theorem create_then_list_first (input : HistoryCreate.t) (e e' : Env)
    (w : World) :
  valid_utc (clock e) →
  store_fault e = None → store_fault e' = None →
  Forall (older_than (clock e)) (history w) →
  ∃ created w' rest,
    serve (POST_history input) e w
      = ({| status := 200; body := HistoryItemJson created |}, w')
    ∧ serve GET_history e' w'
      = ({| status := 200;
            body := HistoryListJson (model_dump created :: rest) |}, w').
Proof.
  intros Hclock Hup Hup' Holder.
  pose (created := new_item input e).
  pose (doc := stored (fresh_object_id e) created).
  pose (w' := with_history w (history w ++ [doc])).
  exists created, w'.
  destruct (newest_sorts_first (history w) (fresh_object_id e) created
              Hclock Holder) as (tl & Hsort).
  fold doc in Hsort.
  assert (Forall iso_timestamped (take 49 tl)) as Htl.
  { apply Forall_take.
    assert (Forall iso_timestamped (doc :: tl)) as Hall.
    { rewrite <- Hsort.
      rewrite (sorted_history_perm (py "timestamp") (history w ++ [doc])).
      apply Forall_app. split.
      - eapply Forall_impl; [exact Holder|].
        intros d. apply older_than_iso_timestamped.
      - constructor; [by apply stored_iso_timestamped|constructor]. }
    by inversion Hall. }
  destruct (for_each_parse_returns _ e' w' Htl) as (rest & Hrun).
  exists rest. simpl. unfold route. split.
  - by rewrite save_history_run, Hup.
  - rewrite get_history_run, Hup'. simpl history. rewrite Hsort.
    cbn [take fmap list_fmap for_each]. unfold mbind at 1, M_bind at 1.
    unfold doc at 1.
    rewrite (parse_timestamp_stored (fresh_object_id e) created e' w' Hclock).
    unfold mbind, M_bind. rewrite Hrun. reflexivity.
Qed.

Lemma create_then_list_first_witness :
  ∃ created w' rest,
    serve (POST_history sample_input) sample_env
      (with_history startup
         [stored 7 {| HistoryItem.id := py "0b9c3c0e-0000-4000-8000-000000000007";
                      HistoryItem.original_text := py "old";
                      HistoryItem.rephrased_text := py "older";
                      HistoryItem.tone := py "formal";
                      HistoryItem.timestamp := half_past |}])
      = ({| status := 200; body := HistoryItemJson created |}, w')
    ∧ serve GET_history sample_env w'
      = ({| status := 200;
            body := HistoryListJson (model_dump created :: rest) |}, w').
Proof.
  apply (create_then_list_first sample_input sample_env sample_env);
    [split; reflexivity|reflexivity|reflexivity|].
  constructor; [|constructor].
  exists half_past. split; [split; reflexivity|].
  split; [reflexivity|]. unfold datetime_lt. decide_closed.
Defined.

(** C7, as stated, fails when the clock of the create reads earlier than a
    stored timestamp: in [world_one], reached by one create at 00:00:01,
    a create served with the clock at 00:00:00 returns a record that a list
    served right after does not put first. *)
Lemma create_then_list_counterexample :
  reachable world_one ∧ env_sound sample_env world_one
  ∧ ∃ created w' first rest,
      serve (POST_history sample_input) sample_env world_one
        = ({| status := 200; body := HistoryItemJson created |}, w')
      ∧ serve GET_history sample_env w'
        = ({| status := 200; body := HistoryListJson (first :: rest) |}, w')
      ∧ first ≠ model_dump created
      ∧ first !! py "id" = Some (VStr (fresh_uuid later_env))
      ∧ created = new_item sample_input sample_env.
Proof.
  split; [exact world_one_reachable|]. split; [exact sample_env_sound|].
  eexists _, _, _, _.
  split; [vm_compute; reflexivity|].
  split; [vm_compute; reflexivity|].
  split; [|split; [vm_compute; reflexivity|reflexivity]].
  intros Heq. apply (f_equal (λ d : document, d !! py "id")) in Heq.
  vm_compute in Heq. discriminate Heq.
Qed.

(** ** The timestamp of a record, stored and read back *)

Lemma stored_inj (o1 o2 : N) (h1 h2 : HistoryItem.t) :
  valid_utc (HistoryItem.timestamp h1) → valid_utc (HistoryItem.timestamp h2) →
  stored o1 h1 = stored o2 h2 → h1 = h2.
Proof.
  intros [Hv1 _] [Hv2 _] Heq.
  assert (∀ k, stored o1 h1 !! k = stored o2 h2 !! k) as Hk
    by (intros k; by rewrite Heq).
  pose proof (Hk (py "id")) as H1.
  pose proof (Hk (py "original_text")) as H2.
  pose proof (Hk (py "rephrased_text")) as H3.
  pose proof (Hk (py "tone")) as H4.
  pose proof (Hk (py "timestamp")) as H5.
  destruct h1, h2.
  change (Some (VStr id) = Some (VStr id0)) in H1.
  change (Some (VStr original_text) = Some (VStr original_text0)) in H2.
  change (Some (VStr rephrased_text) = Some (VStr rephrased_text0)) in H3.
  change (Some (VStr tone) = Some (VStr tone0)) in H4.
  change (Some (VStr (isoformat timestamp))
          = Some (VStr (isoformat timestamp0))) in H5.
  simpl in Hv1, Hv2.
  assert (timestamp = timestamp0) by (apply isoformat_inj; congruence).
  congruence.
Qed.

Lemma NoDup_fmap_eq {A B} (f : A → B) (l : list A) (x y : A) :
  NoDup (f <$> l) → x ∈ l → y ∈ l → f x = f y → x = y.
Proof.
  induction l as [|a l IH]; intros Hnodup Hx Hy Hf.
  - by apply elem_of_nil in Hx.
  - simpl in Hnodup. apply NoDup_cons in Hnodup as [Hnotin Hnodup].
    apply elem_of_cons in Hx as [->|Hx], Hy as [->|Hy]; auto.
    + destruct Hnotin. rewrite Hf. apply list_elem_of_fmap. by exists y.
    + destruct Hnotin. rewrite <- Hf. apply list_elem_of_fmap. by exists x.
Qed.

(** C10.  For a timestamp the clock gives at creation, in a state the
    service can reach and with the store answering: parsing its isoformat
    string gives the timestamp back; the create route returns a record with
    that timestamp and stores a document holding its isoformat string; and
    in a list served right after, every record with the id of the created
    one carries the timestamp the create returned.  With fewer than 50
    records stored before, the created record is in that list. *)
Theorem timestamp_roundtrip (d : datetime) (input : HistoryCreate.t)
    (e e' : Env) (w : World) :
  valid_utc d → clock e = d →
  reachable w → unused_id (fresh_uuid e) (history w) →
  store_fault e = None → store_fault e' = None →
  fromisoformat (isoformat d) = Some d
  ∧ ∃ created doc hs,
      save_history input e w
        = (Ok created, with_history w (history w ++ [doc]))
      ∧ HistoryItem.timestamp created = d
      ∧ doc !! py "timestamp" = Some (VStr (isoformat d))
      ∧ get_history e' (with_history w (history w ++ [doc]))
        = (Ok (model_dump <$> hs), with_history w (history w ++ [doc]))
      ∧ (∀ h, h ∈ hs → HistoryItem.id h = HistoryItem.id created →
              HistoryItem.timestamp h = d)
      ∧ ((length (history w) < 50)%nat → created ∈ hs).
Proof.
  intros Hvalid <- Hreach Hfresh Hup Hup'.
  split; [by apply fromisoformat_isoformat, Hvalid|].
  pose (created := new_item input e).
  pose (doc := stored (fresh_object_id e) created).
  exists created, doc.
  assert (store_inv (history w ++ [doc])) as Hinv.
  { apply store_inv_insert; [by apply reachable_store_inv|done..]. }
  destruct (get_history_listing e' (with_history w (history w ++ [doc]))
              Hinv Hup') as (hs & Hrun & Hrel & _ & _).
  simpl history in Hrel.
  pose proof (sorted_history_perm (py "timestamp") (history w ++ [doc]))
    as Hperm.
  exists hs. split; [by rewrite save_history_run, Hup|].
  split; [reflexivity|]. split; [reflexivity|]. split; [exact Hrun|].
  split.
  - intros h Hh Hid.
    apply list_elem_of_lookup in Hh as [i Hi].
    destruct (Forall2_lookup_r _ _ _ _ _ Hrel Hi)
      as (d' & Hd' & Hvh & oid & ->).
    apply list_elem_of_lookup_2, subseteq_take in Hd'. rewrite Hperm in Hd'.
    assert (stored oid h = doc) as Hsame.
    { destruct Hinv as [_ Hnodup].
      apply (NoDup_fmap_eq (λ d : document, d !! py "id") _ _ _ Hnodup Hd').
      - apply elem_of_app. right. by left.
      - unfold doc. rewrite !stored_id. by rewrite Hid. }
    by rewrite (stored_inj oid (fresh_object_id e) h created Hvh Hvalid Hsame).
  - intros Hlen.
    assert (doc ∈ take 50 (merge_sort (desc_by (py "timestamp"))
                             (history w ++ [doc]))) as Hin.
    { rewrite take_ge.
      - rewrite Hperm. apply elem_of_app. right. by left.
      - rewrite (Permutation_length Hperm), length_app. simpl. lia. }
    apply list_elem_of_lookup in Hin as [i Hi].
    destruct (Forall2_lookup_l _ _ _ _ _ Hrel Hi)
      as (h & Hh & Hvh & oid & Hsame).
    apply list_elem_of_lookup_2 in Hh.
    by rewrite (stored_inj (fresh_object_id e) oid created h Hvalid Hvh Hsame).
Qed.

Lemma timestamp_roundtrip_witness :
  isoformat half_past = py "2025-12-31T23:59:59.500000+00:00"
  ∧ fromisoformat (py "2025-12-31T23:59:59.500000+00:00") = Some half_past
  ∧ ∃ created doc hs,
      save_history sample_input half_past_env world_two
        = (Ok created, with_history world_two (history world_two ++ [doc]))
      ∧ get_history sample_env
          (with_history world_two (history world_two ++ [doc]))
        = (Ok (model_dump <$> hs),
           with_history world_two (history world_two ++ [doc]))
      ∧ created ∈ hs
      ∧ HistoryItem.timestamp created = half_past.
Proof.
  assert (isoformat half_past = py "2025-12-31T23:59:59.500000+00:00") as Hiso
    by (vm_compute; reflexivity).
  split; [exact Hiso|]. rewrite <- Hiso.
  assert (unused_id (fresh_uuid half_past_env) (history world_two)) as Hfresh
    by (unfold unused_id; decide_closed).
  destruct (timestamp_roundtrip half_past sample_input half_past_env
              sample_env world_two (conj eq_refl eq_refl) eq_refl
              world_two_reachable Hfresh eq_refl eq_refl)
    as (Hparse & created & doc & hs & Hsave & Hts & _ & Hlist & _ & Hin).
  split; [exact Hparse|].
  exists created, doc, hs. repeat (split; [done|]).
  split; [|exact Hts]. apply Hin. vm_compute. lia.
Defined.

(** * Further properties of the routes *)

(** ** The rephrase route without the credential *)

(** X1.  With EMERGENT_LLM_KEY unset or empty, the rephrase route makes no
    provider call and stores nothing; it logs one line and answers 500, the
    detail being "Failed to rephrase text: " followed by the text of the
    exception raised for the missing credential. *)
Theorem rephrase_without_credential (request : RephraseRequest.t) (e : Env)
    (w : World) :
  falsy (EMERGENT_LLM_KEY e) = true →
  route RephraseJson (rephrase_text request) e w
  = ({| status := 500;
        body := DetailJson (py "Failed to rephrase text: "
                            ++ exn_str credential_missing) |},
     with_log w (py "Error rephrasing text: " ++ exn_str credential_missing))
  ∧ llm_calls (route RephraseJson (rephrase_text request) e w).2 = llm_calls w
  ∧ history (route RephraseJson (rephrase_text request) e w).2 = history w.
Proof.
  intros Hkey. unfold route. rewrite rephrase_text_run, Hkey. done.
Qed.

Lemma rephrase_without_credential_witness :
  status (serve (POST_rephrase empty_text_payload) no_credential_env startup).1
  = 500
  ∧ llm_calls (serve (POST_rephrase empty_text_payload) no_credential_env
                 startup).2 = [].
Proof.
  destruct (rephrase_without_credential
              {| RephraseRequest.text := [];
                 RephraseRequest.tone := py "conversational" |}
              no_credential_env startup eq_refl) as (Hrun & Hcalls & _).
  change (serve (POST_rephrase empty_text_payload) no_credential_env startup)
    with (route RephraseJson
            (rephrase_text {| RephraseRequest.text := [];
                              RephraseRequest.tone := py "conversational" |})
            no_credential_env startup).
  rewrite Hcalls. by rewrite Hrun.
Defined.

(** ** The body of a rephrase request *)

(** X2.  A rephrase body that names no tone is served exactly as the same
    body with the tone "conversational". *)
Theorem rephrase_default_tone (fields : gmap str json) (e : Env) (w : World) :
  fields !! py "tone" = None →
  serve (POST_rephrase (JObject fields)) e w
  = serve (POST_rephrase
             (JObject (<[py "tone" := JString (py "conversational")]> fields)))
      e w.
Proof.
  intros Hnone. unfold serve, validate_RephraseRequest.
  rewrite lookup_insert_eq, Hnone.
  rewrite lookup_insert_ne
    by (intros Hkey; vm_compute in Hkey; discriminate Hkey).
  by destruct (fields !! py "text") as [[]|].
Qed.

Lemma rephrase_default_tone_witness :
  serve (POST_rephrase (JObject {[ py "text" := JString (py "Test text") ]}))
    sample_env startup
  = serve (POST_rephrase
             (JObject (<[py "tone" := JString (py "conversational")]>
                         {[ py "text" := JString (py "Test text") ]})))
      sample_env startup.
Proof.
  apply (rephrase_default_tone {[ py "text" := JString (py "Test text") ]}).
  reflexivity.
Defined.

(** X3.  A rephrase request is answered 422 exactly when its body fails
    validation, that is when the body is not an object, its text is missing
    or not a string, or its tone is present and not a string; and a request
    answered 422 changes nothing: nothing is stored, logged or sent to the
    provider. *)
Theorem rephrase_unprocessable (payload : json) (e : Env) (w : World) :
  (status (serve (POST_rephrase payload) e w).1 = 422
   ↔ validate_RephraseRequest payload = None)
  ∧ (validate_RephraseRequest payload = None
     ↔ match payload with
       | JObject fields =>
           (∀ t, fields !! py "text" ≠ Some (JString t))
           ∨ (∃ v, fields !! py "tone" = Some v ∧ ∀ tn, v ≠ JString tn)
       | _ => True
       end)
  ∧ (status (serve (POST_rephrase payload) e w).1 = 422 →
     (serve (POST_rephrase payload) e w).2 = w).
Proof.
  assert (status (serve (POST_rephrase payload) e w).1 = 422
          ↔ validate_RephraseRequest payload = None) as Hiff.
  { unfold serve. destruct (validate_RephraseRequest payload) as [req|];
      [|done].
    unfold route. rewrite rephrase_text_run.
    destruct (falsy (EMERGENT_LLM_KEY e)); simpl; [done|].
    destruct (llm_reply e _ _); simpl; done. }
  split; [exact Hiff|]. split.
  - destruct payload as [| | | | |fields]; simpl; try done.
    destruct (fields !! py "text") as [[| | |t| |]|] eqn:Htext;
      try (split; [intros _; left; intros t' Ht'; discriminate Ht'|done]).
    destruct (fields !! py "tone") as [[| | |tn| |]|] eqn:Htone;
      try (split; [intros _; right; eexists; split;
                     [reflexivity|intros tn' Htn'; discriminate Htn']
                  |done]).
    + split; [done|]. intros [Hno|(v & [= <-] & Hv)].
      * by destruct (Hno t).
      * by destruct (Hv tn).
    + split; [done|]. intros [Hno|(v & Hv & _)]; [by destruct (Hno t)|done].
  - intros H422. apply Hiff in H422. unfold serve. by rewrite H422.
Qed.

(** ** The history routes when the store fails *)

(** X4.  When the store driver raises, each history route (create, list,
    delete) answers 500 with its own fixed detail, which does not depend on
    the driver's error; the collection is not changed, no provider call is
    made, and one line ending with the driver's error text is logged. *)
Theorem history_route_store_error (r : request) (e : Env) (w : World)
    (cause : str) :
  history_route r = true → store_fault e = Some cause →
  (serve r e w).1 = {| status := 500; body := DetailJson (generic_detail r) |}
  ∧ history (serve r e w).2 = history w
  ∧ llm_calls (serve r e w).2 = llm_calls w
  ∧ ∃ prefix, logged (serve r e w).2 = logged w ++ [prefix ++ cause].
Proof.
  intros Hroute Hfault.
  destruct (history_failures_are_generic e w cause Hfault)
    as (Hsave & Hlist & Hdelete).
  destruct r as [|payload|input| |history_id]; try discriminate Hroute; simpl.
  - rewrite Hsave. repeat split. by eexists.
  - rewrite Hlist. repeat split. by eexists.
  - rewrite Hdelete. repeat split. by eexists.
Qed.

Lemma history_route_store_error_witness :
  (serve GET_history store_down_env world_two).1
  = {| status := 500; body := DetailJson (py "Failed to fetch history") |}
  ∧ history (serve GET_history store_down_env world_two).2 = history world_two.
Proof.
  destruct (history_route_store_error GET_history store_down_env world_two
              (py "ServerSelectionTimeoutError") eq_refl eq_refl)
    as (Hresp & Hhist & _).
  split; [exact Hresp|exact Hhist].
Defined.

(** ** What a request can and cannot change *)

Lemma get_history_world (e : Env) (w : World) :
  (∃ items, get_history e w = (Ok items, w))
  ∨ (∃ line, get_history e w
             = (Raise (HTTPException 500 (py "Failed to fetch history")),
                with_log w line)).
Proof.
  rewrite get_history_run. destruct (store_fault e); [right; by eexists|].
  pose proof (for_each_parse_world
    (delete (py "_id")
       <$> take 50 (merge_sort (desc_by (py "timestamp")) (history w)))
    e w) as Hw.
  destruct (for_each _ _ _ _) as [[items|x] w']; simpl in Hw; subst.
  - left. by eexists.
  - right. by eexists.
Qed.

(** X5.  Whatever the request: only the create and delete routes change the
    collection, and a create adds at most one document while a delete
    removes at most one; only the rephrase route calls the provider; and a
    line is logged only for a request answered 500. *)
Theorem request_frame (r : request) (e : Env) (w : World) :
  (history (serve r e w).2 = history w
   ∨ (∃ input doc, r = POST_history input
                   ∧ history (serve r e w).2 = history w ++ [doc])
   ∨ (∃ history_id l1 d l2, r = DELETE_history history_id
                            ∧ history w = l1 ++ d :: l2
                            ∧ history (serve r e w).2 = l1 ++ l2))
  ∧ (llm_calls (serve r e w).2 = llm_calls w
     ∨ ∃ payload, r = POST_rephrase payload)
  ∧ (logged (serve r e w).2 = logged w ∨ status (serve r e w).1 = 500).
Proof.
  destruct r as [|payload|input| |history_id]; simpl.
  - auto.
  - split; [|split; [eauto|]].
    + left. destruct (validate_RephraseRequest payload) as [req|]; [|done].
      unfold route. destruct (rephrase_text_frame req e w) as [Hhist _].
      by destruct (rephrase_text req e w).
    + destruct (validate_RephraseRequest payload) as [req|]; [|by left].
      unfold route. rewrite rephrase_text_run.
      destruct (falsy (EMERGENT_LLM_KEY e)); simpl; [by right|].
      destruct (llm_reply e _ _); simpl; auto.
  - unfold route. rewrite save_history_run.
    destruct (store_fault e); simpl; [auto|].
    split; [right; left; by eexists _, _|auto].
  - unfold route.
    destruct (get_history_world e w) as [[items ->]|[line ->]]; simpl; auto.
  - unfold route. rewrite delete_history_item_run.
    destruct (store_fault e); simpl; [auto|].
    destruct (remove_first _ _ _) as [l|] eqn:Hrm; simpl; [|auto].
    apply remove_first_Some in Hrm as (l1 & d & l2 & Heq & -> & _ & _).
    split; [right; right; by exists history_id, l1, d, l2|auto].
Qed.


(** ** The documents of a reachable collection *)

Lemma stored_shape (oid : N) (h : HistoryItem.t) :
  dom (stored oid h) = {[ py "_id" ]} ∪ semantic_fields
  ∧ stored oid h !! py "_id" = Some (VObjectId oid).
Proof. split; reflexivity. Qed.

(** X7.  In every state the service can reach, no two stored documents carry
    the same id, and every stored document has exactly the keys _id, id,
    original_text, rephrased_text, tone and timestamp, its id a string, its
    _id an ObjectId and its timestamp the isoformat string of a UTC
    datetime. *)
Theorem reachable_documents (w : World) :
  reachable w →
  NoDup ((λ d : document, d !! py "id") <$> history w)
  ∧ Forall (λ d : document,
              dom d = {[ py "_id" ]} ∪ semantic_fields
              ∧ (∃ oid, d !! py "_id" = Some (VObjectId oid))
              ∧ (∃ uid, d !! py "id" = Some (VStr uid))
              ∧ (∃ ts, valid_utc ts
                       ∧ d !! py "timestamp" = Some (VStr (isoformat ts))))
           (history w).
Proof.
  intros Hreach. apply reachable_store_inv in Hreach as [Hwritten Hnodup].
  split; [exact Hnodup|].
  eapply Forall_impl; [exact Hwritten|].
  intros d (oid & h & Hvalid & ->).
  destruct (stored_shape oid h) as [Hdom Hoid].
  split; [exact Hdom|]. split; [by exists oid|].
  split; [exists (HistoryItem.id h); apply stored_id|].
  exists (HistoryItem.timestamp h). split; [exact Hvalid|apply stored_timestamp].
Qed.

Lemma reachable_documents_witness :
  NoDup ((λ d : document, d !! py "id") <$> history world_two)
  ∧ length (history world_two) = 2%nat.
Proof.
  destruct (reachable_documents world_two world_two_reachable) as [Hnodup _].
  split; [exact Hnodup|reflexivity].
Defined.

(** ** Which records the list route returns *)

(** X8.  In a state the service can reach, with the store answering, the
    list route returns min(50, number of stored documents) records; they are
    the records of that many stored documents, and every stored document
    left out carries a timestamp no later than that of every record
    returned. *)
Theorem list_history_window (e : Env) (w : World) :
  reachable w → store_fault e = None →
  ∃ hs listed others,
    get_history e w = (Ok (model_dump <$> hs), w)
    ∧ history w ≡ₚ listed ++ others
    ∧ Forall2 (λ d h, ∃ oid, d = stored oid h) listed hs
    ∧ length hs = Nat.min 50 (length (history w))
    ∧ ∀ h d, h ∈ hs → d ∈ others →
        ∃ oid h', d = stored oid h'
                  ∧ datetime_le (HistoryItem.timestamp h')
                                (HistoryItem.timestamp h).
Proof.
  intros Hreach Hup. apply reachable_store_inv in Hreach as Hinv.
  destruct (get_history_listing e w Hinv Hup) as (hs & Hrun & Hrel & _ & _).
  set (sorted := merge_sort (desc_by (py "timestamp")) (history w)) in *.
  pose proof (sorted_history_perm (py "timestamp") (history w)) as Hperm.
  pose proof (sorted_history_sorted (py "timestamp") (history w)) as Hsorted.
  fold sorted in Hperm, Hsorted.
  exists hs, (take 50 sorted), (drop 50 sorted).
  split; [exact Hrun|]. split; [by rewrite take_drop|]. split.
  { eapply Forall2_impl; [exact Hrel|]. by intros d h [_ ?]. }
  split.
  { rewrite <- (Forall2_length _ _ _ Hrel), length_take.
    by rewrite (Permutation_length Hperm). }
  intros h d Hh Hd.
  apply list_elem_of_lookup in Hh as [i Hi].
  destruct (Forall2_lookup_r _ _ _ _ _ Hrel Hi) as (d0 & Hd0 & Hvh & oid0 & ->).
  apply list_elem_of_lookup_2 in Hd0.
  assert (written_by_service d) as (oid & h' & Hvh' & ->).
  { destruct Hinv as [Hwritten _]. rewrite Forall_forall in Hwritten.
    apply Hwritten. rewrite <- Hperm, <- (take_drop 50 sorted).
    apply elem_of_app. by right. }
  exists oid, h'. split; [reflexivity|].
  rewrite <- (take_drop 50 sorted) in Hsorted.
  pose proof (StronglySorted_app_1_elem_of _ _ _ _ _ Hsorted Hd0 Hd) as Hord.
  by apply desc_by_stored in Hord.
Qed.

Lemma list_history_window_witness :
  ∃ hs listed others,
    get_history sample_env world_two = (Ok (model_dump <$> hs), world_two)
    ∧ history world_two ≡ₚ listed ++ others
    ∧ length hs = 2%nat.
Proof.
  destruct (list_history_window sample_env world_two world_two_reachable
              eq_refl) as (hs & listed & others & Hrun & Hperm & _ & Hlen & _).
  exists hs, listed, others. split; [exact Hrun|]. split; [exact Hperm|].
  rewrite Hlen. reflexivity.
Defined.

(** ** Deleting a record and listing right after *)

Lemma removed_id_absent (l1 l2 : list document) (d : document) (v : value) :
  NoDup ((λ x : document, x !! py "id") <$> (l1 ++ d :: l2)) →
  d !! py "id" = Some v →
  Forall (λ x, x !! py "id" ≠ Some v) (l1 ++ l2).
Proof.
  intros Hnodup Hd. rewrite fmap_app in Hnodup. simpl in Hnodup.
  apply NoDup_app in Hnodup as (_ & Hdisj & Htl).
  apply NoDup_cons in Htl as [Hnotin _].
  apply Forall_app. split; apply Forall_forall; intros x Hx Hxid.
  - apply (Hdisj (x !! py "id")).
    + apply list_elem_of_fmap. by exists x.
    + rewrite Hxid, <- Hd. by left.
  - apply Hnotin. rewrite Hd, <- Hxid. apply list_elem_of_fmap. by exists x.
Qed.

(** X9.  In a state the service can reach, with the store answering:
    deleting an id some record carries is answered 200 and leaves one
    document fewer, and a list served right after returns no record with
    that id. *)
Theorem delete_then_list (history_id : str) (e e' : Env) (w : World) :
  reachable w → store_fault e = None → store_fault e' = None →
  has_id history_id (history w) →
  ∃ w' hs,
    serve (DELETE_history history_id) e w = (deleted, w')
    ∧ length (history w) = S (length (history w'))
    ∧ get_history e' w' = (Ok (model_dump <$> hs), w')
    ∧ Forall (λ h, HistoryItem.id h ≠ history_id) hs.
Proof.
  intros Hreach Hup Hup' Hpresent.
  apply reachable_store_inv in Hreach as Hinv.
  destruct (delete_present history_id e w Hup Hpresent)
    as (l1 & d & l2 & Heq & Hd & _ & Hrun).
  rewrite Heq in Hinv.
  pose proof (store_inv_remove l1 l2 d Hinv) as Hinv'.
  destruct (get_history_listing e' (with_history w (l1 ++ l2)) Hinv' Hup')
    as (hs & Hlist & Hrel & _ & _).
  exists (with_history w (l1 ++ l2)), hs.
  split; [exact Hrun|]. split.
  { rewrite Heq. simpl. rewrite !length_app. simpl. lia. }
  split; [exact Hlist|].
  destruct Hinv as [_ Hnodup].
  pose proof (removed_id_absent l1 l2 d _ Hnodup Hd) as Habsent.
  apply Forall_forall. intros h Hh Hid.
  apply list_elem_of_lookup in Hh as [i Hi].
  destruct (Forall2_lookup_r _ _ _ _ _ Hrel Hi) as (d0 & Hd0 & _ & oid & ->).
  apply list_elem_of_lookup_2, subseteq_take in Hd0. simpl in Hd0.
  rewrite (sorted_history_perm (py "timestamp") (l1 ++ l2)) in Hd0.
  rewrite Forall_forall in Habsent. apply (Habsent _ Hd0).
  by rewrite stored_id, Hid.
Qed.

Lemma delete_then_list_witness :
  ∃ w' hs,
    serve (DELETE_history (fresh_uuid sample_env)) sample_env world_two
      = (deleted, w')
    ∧ length (history w') = 1%nat
    ∧ get_history sample_env w' = (Ok (model_dump <$> hs), w')
    ∧ Forall (λ h, HistoryItem.id h ≠ fresh_uuid sample_env) hs.
Proof.
  assert (has_id (fresh_uuid sample_env) (history world_two)) as Hpresent
    by (unfold has_id; decide_closed).
  destruct (delete_then_list (fresh_uuid sample_env) sample_env sample_env
              world_two world_two_reachable eq_refl eq_refl Hpresent)
    as (w' & hs & Hrun & Hlen & Hlist & Hids).
  exists w', hs. split; [exact Hrun|]. split; [|by split].
  assert (length (history world_two) = 2%nat) as Htwo by reflexivity.
  rewrite Htwo in Hlen. by injection Hlen as <-.
Defined.

(** ** Listing a collection that holds a document without a timestamp *)

Lemma for_each_parse_untimed (l : list document) (e : Env) (w : World) :
  Exists (λ d, d !! py "timestamp" = None) l →
  ∃ x, for_each parse_timestamp (delete (py "_id") <$> l) e w = (Raise x, w).
Proof.
  induction 1 as [d l Hd|d l _ [x IH]];
    cbn [fmap list_fmap for_each]; unfold mbind at 1, M_bind.
  - exists (KeyError (py "timestamp")).
    unfold parse_timestamp at 1, mbind at 1, M_bind, dict_getitem.
    rewrite lookup_delete_ne
      by (intros Hkey; vm_compute in Hkey; discriminate Hkey).
    by rewrite Hd.
  - pose proof (parse_timestamp_world (delete (py "_id") d) e w) as Hw.
    destruct (parse_timestamp (delete (py "_id") d) e w) as [[item|x'] w1];
      simpl in Hw; subst w1; [|by exists x'].
    exists x. unfold mbind, M_bind.
    change (list_fmap document document (delete (py "_id")) l)
      with (delete (py "_id") <$> l).
    by rewrite IH.
Qed.

(** X10.  With the store answering and at most 50 documents stored: if some
    stored document has no timestamp field, the list route returns no list
    at all; it logs one line, answers 500 with the detail "Failed to fetch
    history" and leaves the collection as it was. *)
Theorem list_history_untimed_document (e : Env) (w : World) :
  store_fault e = None → (length (history w) ≤ 50)%nat →
  Exists (λ d, d !! py "timestamp" = None) (history w) →
  ∃ line,
    serve GET_history e w
    = ({| status := 500; body := DetailJson (py "Failed to fetch history") |},
       with_log w line).
Proof.
  intros Hup Hlen Huntimed. simpl. unfold route.
  rewrite get_history_run, Hup.
  pose proof (sorted_history_perm (py "timestamp") (history w)) as Hperm.
  rewrite take_ge by (rewrite (Permutation_length Hperm); exact Hlen).
  assert (Exists (λ d : document, d !! py "timestamp" = None)
            (merge_sort (desc_by (py "timestamp")) (history w))) as Hsorted.
  { rewrite Exists_exists in *. destruct Huntimed as (d & Hin & Hd).
    exists d. split; [by rewrite Hperm|exact Hd]. }
  destruct (for_each_parse_untimed _ e w Hsorted) as [x ->].
  by eexists.
Qed.

Lemma list_history_untimed_document_witness :
  ∃ line,
    serve GET_history sample_env untimed_world
    = ({| status := 500; body := DetailJson (py "Failed to fetch history") |},
       with_log untimed_world line).
Proof.
  apply (list_history_untimed_document sample_env untimed_world eq_refl).
  - simpl. lia.
  - apply Exists_cons_hd. reflexivity.
Defined.

(** ** Bounds on the word count *)

Lemma token_starts_bound (s : str) (after_space : bool) :
  (2 * token_starts after_space s
   ≤ length s + (if after_space then 1 else 0))%nat.
Proof.
  revert after_space. induction s as [|c s IH]; intros after_space; simpl.
  - lia.
  - pose proof (IH (isspace c)) as Hrec.
    destruct after_space, (isspace c); simpl in *; lia.
Qed.

Lemma token_starts_zero (s : str) :
  token_starts true s = 0%nat ↔ Forall (λ c, isspace c = true) s.
Proof.
  induction s as [|c s IH]; simpl.
  - split; [constructor|reflexivity].
  - destruct (isspace c) eqn:Hc; simpl.
    + rewrite IH. split; [by constructor|by inversion 1].
    + split; [discriminate|]. inversion 1; congruence.
Qed.

(** X11.  When the rephrase route returns, twice its word_count is at most
    its char_count plus one, so the word_count never exceeds the char_count;
    and the word_count is 0 exactly when the completion is empty or all
    whitespace. *)
Theorem rephrase_word_count_bounds (request : RephraseRequest.t) (e : Env)
    (w w' : World) (resp : RephraseResponse.t) :
  rephrase_text request e w = (Ok resp, w') →
  2 * RephraseResponse.word_count resp ≤ RephraseResponse.char_count resp + 1
  ∧ RephraseResponse.word_count resp ≤ RephraseResponse.char_count resp
  ∧ (RephraseResponse.word_count resp = 0
     ↔ Forall (λ c, isspace c = true) (RephraseResponse.rephrased_text resp)).
Proof.
  intros Hrun. apply rephrase_text_Ok_inv in Hrun as (_ & _ & _ & ->).
  simpl. unfold len. rewrite split_length. unfold whitespace_delimited_tokens.
  pose proof (token_starts_bound (RephraseResponse.rephrased_text resp) true)
    as Hbound.
  pose proof (token_starts_zero (RephraseResponse.rephrased_text resp))
    as Hzero.
  simpl in Hbound. split; [lia|]. split; [lia|].
  rewrite <- Hzero. lia.
Qed.

Lemma rephrase_word_count_bounds_witness :
  ∃ resp w',
    rephrase_text two_words_request sample_env startup = (Ok resp, w')
    ∧ 2 * RephraseResponse.word_count resp
      ≤ RephraseResponse.char_count resp + 1.
Proof.
  destruct (rephrase_text two_words_request sample_env startup)
    as [[resp|x] w'] eqn:Hrun; [|vm_compute in Hrun; discriminate Hrun].
  exists resp, w'. split; [reflexivity|].
  by destruct (rephrase_word_count_bounds two_words_request sample_env startup
                 w' resp Hrun) as [Hbound _].
Defined.

(** ** The allowed origins *)

Lemma split_on_cons (sep : N) (s : str) :
  ∃ piece pieces, split_on sep s = piece :: pieces.
Proof.
  destruct s as [|c s]; simpl; [by eexists _, _|].
  destruct (c =? sep)%N; [by eexists _, _|].
  destruct (split_on sep s); by eexists _, _.
Qed.

Lemma join_split_on (sep : N) (s : str) : join_with sep (split_on sep s) = s.
Proof.
  induction s as [|c s IH]; [reflexivity|]. simpl.
  destruct (split_on_cons sep s) as (piece & pieces & Hsplit).
  rewrite Hsplit in *. destruct (N.eqb_spec c sep) as [->|_].
  - by rewrite <- IH.
  - rewrite <- IH. by destruct pieces.
Qed.

Lemma split_on_no_sep (sep : N) (s : str) :
  Forall (λ piece, sep ∉ piece) (split_on sep s).
Proof.
  induction s as [|c s IH]; simpl.
  - constructor; [apply not_elem_of_nil|constructor].
  - destruct (N.eqb_spec c sep) as [->|Hne].
    + constructor; [apply not_elem_of_nil|exact IH].
    + destruct (split_on sep s) as [|piece pieces].
      * constructor; [|constructor]. intros Hin.
        apply list_elem_of_singleton in Hin. congruence.
      * inversion IH; subst. constructor; [|done].
        intros Hin. apply elem_of_cons in Hin as [Hin|Hin]; congruence.
Qed.

Lemma split_on_length (sep : N) (s : str) :
  length (split_on sep s) = S (length (filter (λ c, c = sep) s)).
Proof.
  induction s as [|c s IH]; [reflexivity|]. simpl.
  rewrite filter_cons. destruct (N.eqb_spec c sep) as [->|Hne].
  - rewrite decide_True by done. simpl. by rewrite IH.
  - rewrite decide_False by done.
    destruct (split_on_cons sep s) as (piece & pieces & Hsplit).
    rewrite Hsplit in *. exact IH.
Qed.

(** X12.  The list of allowed origins is never empty: it is ["*"] when
    CORS_ORIGINS is unset, and otherwise the pieces of the variable's value
    between its commas, one more than it has commas, none holding a comma,
    and nothing else is removed (no whitespace is stripped): joined with
    commas they give the value back. *)
Theorem allow_origins_pieces (CORS_ORIGINS : option str) :
  length (allow_origins CORS_ORIGINS)
  = S (length (filter (λ c, c = 44%N) (default (py "*") CORS_ORIGINS)))
  ∧ Forall (λ origin, 44%N ∉ origin) (allow_origins CORS_ORIGINS)
  ∧ join_with 44%N (allow_origins CORS_ORIGINS) = default (py "*") CORS_ORIGINS
  ∧ allow_origins None = [py "*"]
  ∧ allow_origins (Some []) = [[]]
  ∧ allow_origins (Some (py "http://a.test, http://b.test"))
    = [py "http://a.test"; py " http://b.test"].
Proof.
  unfold allow_origins.
  split; [apply split_on_length|]. split; [apply split_on_no_sep|].
  split; [apply join_split_on|]. repeat split; vm_compute; reflexivity.
Qed.

(** ** Creating a record, then listing or deleting it *)

Lemma remove_first_last (field : str) (v : value) (l : list document)
    (d : document) :
  Forall (λ x, x !! field ≠ Some v) l → d !! field = Some v →
  remove_first field v (l ++ [d]) = Some l.
Proof.
  intros Hl Hd. induction Hl as [|x l Hx _ IH]; simpl.
  - by rewrite decide_True.
  - rewrite decide_False by done. by rewrite IH.
Qed.

(** X13.  With the store answering and the generated id not in use: a create
    is answered 200 with a record that carries the input's two texts and
    tone unchanged, and deleting the id of that record right after is
    answered 200 and leaves the collection exactly as it was before the
    create. *)
Theorem create_then_delete (input : HistoryCreate.t) (e e' : Env) (w : World) :
  unused_id (fresh_uuid e) (history w) →
  store_fault e = None → store_fault e' = None →
  ∃ created w',
    serve (POST_history input) e w
      = ({| status := 200; body := HistoryItemJson created |}, w')
    ∧ HistoryItem.original_text created = HistoryCreate.original_text input
    ∧ HistoryItem.rephrased_text created = HistoryCreate.rephrased_text input
    ∧ HistoryItem.tone created = HistoryCreate.tone input
    ∧ length (history w') = S (length (history w))
    ∧ (serve (DELETE_history (HistoryItem.id created)) e' w').1 = deleted
    ∧ history (serve (DELETE_history (HistoryItem.id created)) e' w').2
      = history w.
Proof.
  intros Hfresh Hup Hup'.
  exists (new_item input e),
    (with_history w
       (history w ++ [stored (fresh_object_id e) (new_item input e)])).
  split; [simpl; unfold route; by rewrite save_history_run, Hup|].
  do 3 (split; [reflexivity|]).
  split; [simpl; rewrite length_app; simpl; lia|].
  simpl. unfold route. rewrite delete_history_item_run, Hup'. simpl.
  rewrite (remove_first_last (py "id") (VStr (fresh_uuid e)) (history w)
             (stored (fresh_object_id e) (new_item input e)) Hfresh
             (stored_id _ _)).
  by split.
Qed.

Lemma create_then_delete_witness :
  ∃ created w',
    serve (POST_history sample_input) sample_env world_one
      = ({| status := 200; body := HistoryItemJson created |}, w')
    ∧ history (serve (DELETE_history (HistoryItem.id created)) sample_env w').2
      = history world_one.
Proof.
  destruct sample_env_sound as [_ Hfresh].
  destruct (create_then_delete sample_input sample_env sample_env world_one
              Hfresh eq_refl eq_refl)
    as (created & w' & Hrun & _ & _ & _ & _ & _ & Hback).
  by exists created, w'.
Defined.

(** X14.  In a state the service can reach with fewer than 50 documents
    stored, with the store answering and the generated id not in use: after
    a create, the list served right after holds the record the create
    returned, and every record of the list with the id of that record is
    that record. *)
Theorem create_then_list_holds_record (input : HistoryCreate.t) (e e' : Env)
    (w : World) :
  reachable w → env_sound e w → (length (history w) < 50)%nat →
  store_fault e = None → store_fault e' = None →
  ∃ created w' hs,
    serve (POST_history input) e w
      = ({| status := 200; body := HistoryItemJson created |}, w')
    ∧ serve GET_history e' w'
      = ({| status := 200; body := HistoryListJson (model_dump <$> hs) |}, w')
    ∧ created ∈ hs
    ∧ length hs = S (length (history w))
    ∧ ∀ h, h ∈ hs → HistoryItem.id h = HistoryItem.id created → h = created.
Proof.
  intros Hreach [Hclock Hfresh] Hlen Hup Hup'.
  pose (created := new_item input e).
  pose (doc := stored (fresh_object_id e) created).
  exists created, (with_history w (history w ++ [doc])).
  assert (store_inv (history w ++ [doc])) as Hinv.
  { apply store_inv_insert; [by apply reachable_store_inv|done..]. }
  destruct (get_history_listing e' (with_history w (history w ++ [doc]))
              Hinv Hup') as (hs & Hrun & Hrel & _ & _).
  simpl history in Hrel.
  pose proof (sorted_history_perm (py "timestamp") (history w ++ [doc]))
    as Hperm.
  rewrite take_ge in Hrel
    by (rewrite (Permutation_length Hperm), length_app; simpl; lia).
  exists hs. split; [simpl; unfold route; by rewrite save_history_run, Hup|].
  split; [simpl; unfold route; by rewrite Hrun|].
  split; [|split].
  - assert (doc ∈ merge_sort (desc_by (py "timestamp")) (history w ++ [doc]))
      as Hin by (rewrite Hperm; apply elem_of_app; right; by left).
    apply list_elem_of_lookup in Hin as [i Hi].
    destruct (Forall2_lookup_l _ _ _ _ _ Hrel Hi)
      as (h & Hh & Hvh & oid & Hsame).
    apply list_elem_of_lookup_2 in Hh.
    by rewrite (stored_inj (fresh_object_id e) oid created h Hclock Hvh Hsame).
  - rewrite <- (Forall2_length _ _ _ Hrel), (Permutation_length Hperm),
      length_app. simpl. lia.
  - intros h Hh Hid.
    apply list_elem_of_lookup in Hh as [i Hi].
    destruct (Forall2_lookup_r _ _ _ _ _ Hrel Hi)
      as (d' & Hd' & Hvh & oid & ->).
    apply list_elem_of_lookup_2 in Hd'. rewrite Hperm in Hd'.
    assert (stored oid h = doc) as Hsame.
    { destruct Hinv as [_ Hnodup].
      apply (NoDup_fmap_eq (λ d : document, d !! py "id") _ _ _ Hnodup Hd').
      - apply elem_of_app. right. by left.
      - unfold doc. rewrite !stored_id. by rewrite Hid. }
    exact (stored_inj oid (fresh_object_id e) h created Hvh Hclock Hsame).
Qed.

Lemma create_then_list_holds_record_witness :
  ∃ created w' hs,
    serve (POST_history sample_input) sample_env world_one
      = ({| status := 200; body := HistoryItemJson created |}, w')
    ∧ serve GET_history sample_env w'
      = ({| status := 200; body := HistoryListJson (model_dump <$> hs) |}, w')
    ∧ created ∈ hs
    ∧ length hs = 2%nat.
Proof.
  assert (length (history world_one) < 50)%nat as Hlen by decide_closed.
  destruct (create_then_list_holds_record sample_input sample_env sample_env
              world_one world_one_reachable sample_env_sound Hlen eq_refl
              eq_refl) as (created & w' & hs & Hpost & Hget & Hin & Hn & _).
  by exists created, w', hs.
Defined.

(** * Properties of the API tester *)

Lemma exchange_cases (env : TestEnv) (t : Tester) (method endpoint : str)
    (data : option json) (timeout : Z) :
  exchange env t method endpoint data timeout =
    if decide (method = py "GET")
    then Some (http env (requests_sent t) method (test_url t endpoint) None
                 timeout)
    else if decide (method = py "POST")
    then Some (http env (requests_sent t) method (test_url t endpoint) data
                 timeout)
    else if decide (method = py "DELETE")
    then Some (http env (requests_sent t) method (test_url t endpoint) None
                 timeout)
    else None.
Proof.
  unfold exchange, known_method, sent_body.
  destruct (decide (method = py "GET")) as [->|Hget]; [reflexivity|].
  destruct (decide (method = py "POST")) as [->|Hpost]; [reflexivity|].
  destruct (decide (method = py "DELETE")) as [->|Hdelete]; [reflexivity|].
  rewrite bool_decide_eq_false_2; [reflexivity|].
  intros Hin.
  repeat (apply elem_of_cons in Hin as [Hin|Hin]; [done|]).
  exact (not_elem_of_nil _ Hin).
Qed.

(** [run_test], case by case on the exchange. *)
Lemma run_test_run (json_dumps : json → str) (name method endpoint : str)
    (expected_status : Z) (data : option json) (timeout : Z) (env : TestEnv)
    (t : Tester) :
  run_test json_dumps name method endpoint expected_status data timeout env t =
    let t0 := announced t name endpoint in
    match exchange env t method endpoint data timeout with
    | Some (HttpResponse code text body) =>
        let success := code =? expected_status in
        let t1 := logged_test env (after_request t0) name success
                    (response_details json_dumps expected_status code text
                       body) in
        if success && negb (bool_decide (text = []))
        then match body with
             | JsonValue response_data =>
                 (Returned (success, response_data), t1)
             | JsonError message =>
                 (Returned (false, JObject ∅),
                  logged_test env t1 name false (py "Error: " ++ message))
             end
        else (Returned (success, JObject ∅), t1)
    | Some o =>
        (Returned (false, JObject ∅),
         logged_test env (after_request t0) name false
           (failure_details timeout (Some o)))
    | None =>
        (Returned (false, JObject ∅),
         logged_test env t0 name false (failure_details timeout None))
    end.
Proof.
  rewrite exchange_cases.
  unfold run_test, test_try, mbind, T_bind, print, send, test_raise.
  fold (test_url t endpoint).
  repeat case_decide; subst; try reflexivity;
    (destruct (http env _ _ _ _ _) as [code text body| |message];
     [|reflexivity..];
     unfold response_details;
     destruct (code =? expected_status), (bool_decide (text = [])), body;
     reflexivity).
Qed.

(** ** The counters of the tester *)

Lemma filter_length_all {A} (P : A → Prop) `{∀ x, Decision (P x)}
    (l : list A) :
  length (filter P l) = length l ↔ Forall P l.
Proof.
  induction l as [|x l IH]; [by split; [constructor|]|].
  rewrite filter_cons. pose proof (length_filter P l) as Hle.
  destruct (decide (P x)) as [Hx|Hx]; simpl.
  - split.
    + intros [= Hlen]. constructor; [exact Hx|by apply IH].
    + intros Hall. inversion Hall; subst. f_equal. by apply IH.
  - split; [lia|]. intros Hall. by inversion Hall.
Qed.

Lemma logged_test_fields (env : TestEnv) (t : Tester) (name : str)
    (success : bool) (details : str) :
  ∃ r : gmap str str,
    r !! py "status" = Some (py (if success then "PASS" else "FAIL"))
    ∧ r !! py "test" = Some name
    ∧ r !! py "details" = Some details
    ∧ test_results (logged_test env t name success details)
      = test_results t ++ [r]
    ∧ tests_run (logged_test env t name success details) = tests_run t + 1
    ∧ tests_passed (logged_test env t name success details)
      = tests_passed t + (if success then 1 else 0)
    ∧ base_url (logged_test env t name success details) = base_url t.
Proof.
  eexists. split; [|split; [|split; [|split; [reflexivity|]]]];
    [reflexivity..|].
  simpl. destruct success; repeat split; lia.
Qed.

Lemma logged_test_consistent (env : TestEnv) (t : Tester) (name : str)
    (success : bool) (details : str) :
  tester_consistent t →
  tester_consistent (logged_test env t name success details).
Proof.
  intros (Hrun & Hpassed & Hall).
  destruct (logged_test_fields env t name success details)
    as (r & Hstatus & _ & _ & Hresults & Hrun' & Hpassed' & _).
  unfold tester_consistent, passed_results, len in *.
  rewrite Hresults, Hrun', Hpassed', filter_app, !length_app. simpl.
  split; [lia|]. split.
  - rewrite filter_cons, filter_nil.
    destruct success.
    + rewrite decide_True by exact Hstatus. simpl. lia.
    + rewrite decide_False; [simpl; lia|].
      rewrite Hstatus. intros Heq. vm_compute in Heq. discriminate Heq.
  - apply Forall_app. split; [exact Hall|].
    constructor; [|constructor]. destruct success; auto.
Qed.

(** X15.  A new tester has consistent counters, and [run_test] keeps them
    consistent whatever the exchange does: tests_run is the number of
    logged results, tests_passed the number of results marked PASS, and
    every result is marked PASS or FAIL.  So tests_passed never exceeds
    tests_run, and the two are equal, which is what [run_all_tests] returns,
    exactly when every logged result is marked PASS. *)
Theorem run_test_keeps_counters (json_dumps : json → str)
    (name method endpoint : str) (expected_status : Z) (data : option json)
    (timeout : Z) (env : TestEnv) (t : Tester) :
  tester_consistent t →
  tester_consistent (new_tester (base_url t))
  ∧ tester_consistent
      (run_test json_dumps name method endpoint expected_status data timeout
         env t).2
  ∧ 0 ≤ tests_passed t ≤ tests_run t
  ∧ (tests_passed t = tests_run t
     ↔ Forall (λ r, r !! py "status" = Some (py "PASS")) (test_results t)).
Proof.
  intros Ht. split; [by repeat split|]. split.
  - rewrite run_test_run. cbv zeta.
    assert (tester_consistent (announced t name endpoint)) as Ht0 by exact Ht.
    assert (tester_consistent (after_request (announced t name endpoint)))
      as Ht1 by exact Ht.
    destruct (exchange env t method endpoint data timeout)
      as [[code text body| |message]|]; simpl;
      try by apply logged_test_consistent.
    destruct (code =? expected_status), (bool_decide (text = [])), body; simpl;
      by repeat apply logged_test_consistent.
  - destruct Ht as (Hrun & Hpassed & _).
    unfold passed_results, len in *.
    pose proof (length_filter
      (λ r : gmap str str, r !! py "status" = Some (py "PASS"))
      (test_results t)) as Hle.
    pose proof (filter_length_all
      (λ r : gmap str str, r !! py "status" = Some (py "PASS"))
      (test_results t)) as Hall.
    split; [lia|].
    rewrite <- Hall. split; intros Heq; lia.
Qed.

Lemma run_test_keeps_counters_witness :
  tester_consistent
    (run_test (λ _, py "{}") (py "Root Endpoint") (py "GET") [] 200 None 30
       html_env (new_tester (py "http://localhost:8001"))).2.
Proof.
  apply (run_test_keeps_counters (λ _, py "{}") (py "Root Endpoint") (py "GET")
           [] 200 None 30 html_env (new_tester (py "http://localhost:8001"))).
  by repeat split.
Defined.

(** ** What [run_test] returns and logs *)

(** X16.  [run_test] never raises, whatever the exchange does, and sends at
    most one request (none for a method other than GET, POST and DELETE).
    It returns True exactly when a response came with the expected status
    and either an empty text or a JSON body; it then returns that JSON
    value, or the empty dict when the text is empty, and it returns the
    empty dict whenever it returns False. *)
Theorem run_test_returns (json_dumps : json → str) (name method endpoint : str)
    (expected_status : Z) (data : option json) (timeout : Z) (env : TestEnv)
    (t : Tester) :
  ∃ success value t',
    run_test json_dumps name method endpoint expected_status data timeout env t
      = (Returned (success, value), t')
    ∧ (success = true
       ↔ ∃ text body,
           exchange env t method endpoint data timeout
             = Some (HttpResponse expected_status text body)
           ∧ (text = [] ∧ value = JObject ∅
              ∨ text ≠ [] ∧ body = JsonValue value))
    ∧ (success = false → value = JObject ∅)
    ∧ requests_sent t'
      = (requests_sent t + (if known_method method then 1 else 0))%nat
    ∧ base_url t' = base_url t.
Proof.
  rewrite run_test_run. cbv zeta. unfold exchange.
  destruct (known_method method);
    [destruct (http env _ _ _ _ _) as [code text body| |message]|].
  - destruct (Z.eqb_spec code expected_status) as [->|Hcode];
      destruct (bool_decide (text = [])) eqn:Htext; simpl.
    + apply bool_decide_eq_true in Htext as ->.
      eexists _, _, _. split; [reflexivity|]. split; [|split; [done|]].
      * split; [|done]. intros _. exists [], body. split; [done|]. by left.
      * split; [simpl; lia|done].
    + apply bool_decide_eq_false in Htext. destruct body as [v|message].
      * eexists _, _, _. split; [reflexivity|]. split; [|split; [done|]].
        -- split; [|done]. intros _. exists text, (JsonValue v).
           split; [done|]. by right.
        -- split; [simpl; lia|done].
      * eexists _, _, _. split; [reflexivity|]. split; [|split; [done|]].
        -- split; [done|].
           intros (text' & body' & [= <- <-] & [[? _]|[_ ?]]); done.
        -- split; [simpl; lia|done].
    + eexists _, _, _. split; [reflexivity|]. split; [|split; [done|]].
      * split; [done|]. intros (text' & body' & [= ? _ _] & _). done.
      * split; [simpl; lia|done].
    + eexists _, _, _. split; [reflexivity|]. split; [|split; [done|]].
      * split; [done|]. intros (text' & body' & [= ? _ _] & _). done.
      * split; [simpl; lia|done].
  - eexists _, _, _. split; [reflexivity|]. split; [|split; [done|]].
    + split; [done|]. by intros (? & ? & ? & _).
    + split; [simpl; lia|done].
  - eexists _, _, _. split; [reflexivity|]. split; [|split; [done|]].
    + split; [done|]. by intros (? & ? & ? & _).
    + split; [simpl; lia|done].
  - eexists _, _, _. split; [reflexivity|]. split; [|split; [done|]].
    + split; [done|]. by intros (? & ? & ? & _).
    + split; [simpl; lia|done].
Qed.

(** X17.  [run_test] logs one result for its test, with one exception: when
    the response has the expected status and a body that is not empty and is
    not JSON, it logs two results for the one test, the first marked PASS
    and the second marked FAIL, so that tests_run grows by 2 and
    tests_passed by 1, and it returns False. *)
Theorem run_test_logs_once_or_twice (json_dumps : json → str)
    (name method endpoint : str) (expected_status : Z) (data : option json)
    (timeout : Z) (env : TestEnv) (t : Tester) :
  (passes_without_json (exchange env t method endpoint data timeout)
     expected_status →
   ∃ (r1 r2 : gmap str str) t',
     run_test json_dumps name method endpoint expected_status data timeout
       env t = (Returned (false, JObject ∅), t')
     ∧ test_results t' = test_results t ++ [r1; r2]
     ∧ r1 !! py "test" = Some name ∧ r1 !! py "status" = Some (py "PASS")
     ∧ r2 !! py "test" = Some name ∧ r2 !! py "status" = Some (py "FAIL")
     ∧ tests_run t' = tests_run t + 2
     ∧ tests_passed t' = tests_passed t + 1)
  ∧ (¬ passes_without_json (exchange env t method endpoint data timeout)
         expected_status →
     ∃ (r : gmap str str) success value t',
       run_test json_dumps name method endpoint expected_status data timeout
         env t = (Returned (success, value), t')
       ∧ test_results t' = test_results t ++ [r]
       ∧ r !! py "test" = Some name
       ∧ r !! py "status" = Some (py (if success then "PASS" else "FAIL"))
       ∧ tests_run t' = tests_run t + 1
       ∧ tests_passed t' = tests_passed t + (if success then 1 else 0)).
Proof.
  rewrite run_test_run. cbv zeta. split.
  - intros (text & message & -> & Htext).
    rewrite Z.eqb_refl, bool_decide_eq_false_2 by exact Htext. simpl.
    set (t0 := after_request (announced t name endpoint)).
    destruct (logged_test_fields env t0 name true
                (response_details json_dumps expected_status expected_status
                   text (JsonError message)))
      as (r1 & Hs1 & Hn1 & _ & Hres1 & Hrun1 & Hpass1 & _).
    set (t1 := logged_test env t0 name true _) in *.
    destruct (logged_test_fields env t1 name false (py "Error: " ++ message))
      as (r2 & Hs2 & Hn2 & _ & Hres2 & Hrun2 & Hpass2 & _).
    exists r1, r2, (logged_test env t1 name false (py "Error: " ++ message)).
    split; [reflexivity|].
    rewrite Hres2, Hres1, Hrun2, Hrun1, Hpass2, Hpass1, <- app_assoc.
    repeat (split; [done|]). split; simpl; lia.
  - intros Hnot.
    destruct (exchange env t method endpoint data timeout)
      as [[code text body| |message]|].
    + set (t0 := after_request (announced t name endpoint)).
      destruct (logged_test_fields env t0 name (code =? expected_status)
                  (response_details json_dumps expected_status code text body))
        as (r & Hs & Hn & _ & Hres & Hrun & Hpass & _).
      destruct (Z.eqb_spec code expected_status) as [->|Hcode];
        destruct (bool_decide (text = [])) eqn:Htext; simpl;
        try (exists r; eexists _, _, _; split; [reflexivity|]; by simpl).
      destruct body as [v|message];
        [exists r; eexists _, _, _; split; [reflexivity|]; by simpl|].
      destruct Hnot. exists text, message. split; [done|].
      by apply bool_decide_eq_false in Htext.
    + destruct (logged_test_fields env
                  (after_request (announced t name endpoint)) name false
                  (failure_details timeout (Some HttpTimeout)))
        as (r & Hs & Hn & _ & Hres & Hrun & Hpass & _).
      exists r. eexists _, _, _. split; [reflexivity|]. by simpl.
    + destruct (logged_test_fields env
                  (after_request (announced t name endpoint)) name false
                  (failure_details timeout (Some (HttpError message))))
        as (r & Hs & Hn & _ & Hres & Hrun & Hpass & _).
      exists r. eexists _, _, _. split; [reflexivity|]. by simpl.
    + destruct (logged_test_fields env (announced t name endpoint) name false
                  (failure_details timeout None))
        as (r & Hs & Hn & _ & Hres & Hrun & Hpass & _).
      exists r. eexists _, _, _. split; [reflexivity|]. by simpl.
Qed.

Lemma run_test_logs_once_or_twice_witness :
  ∃ (r1 r2 : gmap str str) t',
    run_test (λ _, py "{}") (py "Root Endpoint") (py "GET") [] 200 None 30
      html_env (new_tester (py "http://localhost:8001"))
      = (Returned (false, JObject ∅), t')
    ∧ test_results t' = [r1; r2]
    ∧ r1 !! py "status" = Some (py "PASS")
    ∧ r2 !! py "status" = Some (py "FAIL")
    ∧ tests_run t' = 2 ∧ tests_passed t' = 1.
Proof.
  destruct (run_test_logs_once_or_twice (λ _, py "{}") (py "Root Endpoint")
              (py "GET") [] 200 None 30 html_env
              (new_tester (py "http://localhost:8001"))) as [Htwice _].
  destruct Htwice
    as (r1 & r2 & t' & Hrun & Hres & _ & Hs1 & _ & Hs2 & Hn & Hp).
  { eexists _, _. split; [reflexivity|]. discriminate. }
  by exists r1, r2, t'.
Defined.
